(** * The operate-env reply command of the bot

  A shallow embedding of [pkg/bot/src/cmd/template/operate-env.ts]
  ([createCmd]: [main], [constructComment], [update]) together with the
  JavaScript run-time behaviour the command relies on: exceptions,
  array indexing, property lookup on an object literal,
  [encodeURIComponent] and the Temporal conversions. *)

From Stdlib Require Import ZArith List String Ascii Bool Lia DecimalString.
Import ListNotations.
Local Open Scope string_scope.
Local Open Scope Z_scope.

(* ===================================================================== *)
(** ** JavaScript run-time *)
(* ===================================================================== *)

Module Js.

(** Strings are byte strings holding the (generalised) UTF-8 encoding of
    the JavaScript string: an unpaired surrogate code unit
    U+D800..U+DFFF, which a JavaScript string may contain, shows up as
    the three bytes [ED A0..BF 80..BF]. *)

(** What a [throw] carries.  [PropertyOfUndefined p] is the TypeError the
    engine raises itself for [undefined.p]; [TypeError m] and [Error m]
    are the objects built by [new TypeError(m)] and [new Error(m)];
    [URIError] is raised by the URI encoding functions. *)
Inductive Exception : Type :=
| Error (message : string)
| TypeError (message : string)
| PropertyOfUndefined (property : string)
| URIError.

(** Synchronous code that may throw. *)
Definition Result (A : Type) : Type := (Exception + A)%type.

Definition ok {A} (a : A) : Result A := inr a.
Definition throw {A} (e : Exception) : Result A := inl e.
Definition rbind {A B} (r : Result A) (k : A -> Result B) : Result B :=
  match r with
  | inl e => inl e
  | inr a => k a
  end.

(** [xs[i]]: [undefined] outside of [0 .. length-1]. *)
Definition index {A} (xs : list A) (i : Z) : option A :=
  if i <? 0 then None else nth_error xs (Z.to_nat i).

(** [a ?? b] *)
Definition nullish {A} (a : option A) (b : A) : A :=
  match a with
  | Some x => x
  | None => b
  end.

(** [obj.p] where [obj] may be [undefined]: reading a property of
    [undefined] throws. *)
Definition prop {A B} (obj : option A) (p : string) (get : A -> B)
  : Result B :=
  match obj with
  | Some o => ok (get o)
  | None => throw (PropertyOfUndefined p)
  end.

(** [obj?.p] *)
Definition optProp {A B} (obj : option A) (get : A -> option B) : option B :=
  match obj with
  | Some o => get o
  | None => None
  end.

(** The property names every ordinary object inherits from
    [Object.prototype]. *)
Definition objectPrototypeKeys : list string :=
  [ "constructor"; "hasOwnProperty"; "isPrototypeOf";
    "propertyIsEnumerable"; "toLocaleString"; "toString"; "valueOf";
    "__proto__"; "__defineGetter__"; "__defineSetter__";
    "__lookupGetter__"; "__lookupSetter__" ].

(** The value of [obj[k]] for an object literal [obj] whose own
    properties hold values of type [A]: an own property, or a member
    inherited from [Object.prototype] (a function or an object, never
    [null] or [undefined]). *)
Inductive Member (A : Type) : Type :=
| Own (a : A)
| Inherited (key : string).
Arguments Own {A} a.
Arguments Inherited {A} key.

Fixpoint ownProperty {A} (props : list (string * A)) (k : string)
  : option A :=
  match props with
  | [] => None
  | (k', v) :: rest => if String.eqb k' k then Some v else ownProperty rest k
  end.

Definition inList (k : string) (ks : list string) : bool :=
  existsb (String.eqb k) ks.

(** [({ k1: v1, ... })[k]]: own properties first, then the prototype;
    [undefined] when neither has the key. *)
Definition get {A} (props : list (string * A)) (k : string)
  : option (Member A) :=
  match ownProperty props k with
  | Some v => Some (Own v)
  | None =>
      if inList k objectPrototypeKeys then Some (Inherited k) else None
  end.

(** *** encodeURIComponent *)

Definition hexDigit (n : N) : ascii :=
  if (n <? 10)%N then ascii_of_N (48 + n) else ascii_of_N (55 + n).

(** [%XX], upper-case hexadecimal. *)
Definition percent (c : ascii) : string :=
  let n := N_of_ascii c in
  String "%" (String (hexDigit (n / 16)) (String (hexDigit (n mod 16)) "")).

Definition between (lo hi : N) (c : ascii) : bool :=
  let n := N_of_ascii c in ((lo <=? n) && (n <=? hi))%N.

(** uriUnescaped: letters, digits and [- _ . ! ~ * ' ( )]. *)
Definition uriUnescaped (c : ascii) : bool :=
  between 65 90 c || between 97 122 c || between 48 57 c
  || inList (String c "") ["-"; "_"; "."; "!"; "~"; "*"; "'"; "("; ")"].

(** An unpaired surrogate starts here: lead byte [ED] followed by a byte
    in [A0..BF]. *)
Definition surrogateAt (c : ascii) (rest : string) : bool :=
  (N_of_ascii c =? 237)%N
  && match rest with
     | String d _ => between 160 191 d
     | EmptyString => false
     end.

(** Every other code point is replaced by the escapes of its UTF-8
    octets; an unpaired surrogate has no UTF-8 encoding and makes the
    function throw. *)
Fixpoint encodeURIComponent (s : string) : Result string :=
  match s with
  | EmptyString => ok EmptyString
  | String c rest =>
      if uriUnescaped c then
        rbind (encodeURIComponent rest) (fun r => ok (String c r))
      else if surrogateAt c rest then throw URIError
      else rbind (encodeURIComponent rest) (fun r => ok (percent c ++ r))
  end.

(** No unpaired surrogate anywhere in the string. *)
Fixpoint wellFormed (s : string) : bool :=
  match s with
  | EmptyString => true
  | String c rest => negb (surrogateAt c rest) && wellFormed rest
  end.

(** Truthiness of a string: only the empty string is falsy. *)
Definition truthy (s : string) : bool :=
  negb (String.eqb s "").

End Js.

(* ===================================================================== *)
(** ** Temporal *)
(* ===================================================================== *)

Module Temporal.

(** A [Date] is its time value, milliseconds since the epoch: the dates
    the command handles are the ones the SDK builds from the epoch numbers
    the service sends. *)
Definition Date : Type := Z.

(** A [Temporal.Instant] is its [epochNanoseconds]. *)
Definition Instant : Type := Z.

(** [toTemporalInstant.call(date)] *)
Definition toTemporalInstant (d : Date) : Instant := d * 1000000.

(** A [Temporal.Duration] as [Instant.prototype.until] produces it with
    its default options: balanced up to seconds, all fields of one
    sign. *)
Record Duration : Type := mkDuration {
  seconds : Z;
  milliseconds : Z;
  microseconds : Z;
  nanoseconds : Z;
}.

(** [a.until(b)] *)
Definition until (a b : Instant) : Duration :=
  let d := b - a in
  {| seconds := Z.quot d 1000000000;
     milliseconds := Z.quot (Z.rem d 1000000000) 1000000;
     microseconds := Z.quot (Z.rem d 1000000) 1000;
     nanoseconds := Z.rem d 1000 |}.

End Temporal.

(* ===================================================================== *)
(** ** Collaborators: the AWS SDK shapes and the outside world *)
(* ===================================================================== *)

Module Aws.

(** [LogsLocation] of the CodeBuild client; only [deepLink] is read. *)
Record LogsLocation : Type := mkLogs {
  deepLink : option string;
}.

(** [Build] of the CodeBuild client: every field is optional in the SDK's
    declaration ([id?: string], [startTime?: Date], ...). *)
Record Build : Type := mkBuild {
  id : option string;
  arn : option string;
  buildStatus : option string;
  startTime : option Temporal.Date;
  endTime : option Temporal.Date;
  logs : option LogsLocation;
}.

Record StartBuildOutput : Type := mkStartBuildOutput {
  build : option Build;
}.

Record BatchGetBuildsOutput : Type := mkBatchGetBuildsOutput {
  builds : option (list Build);
}.

Record EnvironmentVariable : Type := mkEnvVar {
  name : string;
  value : string;
}.

Record StartBuildInput : Type := mkStartBuildInput {
  projectName : string;
  environmentVariablesOverride : list EnvironmentVariable;
}.

Record BatchGetBuildsInput : Type := mkBatchGetBuildsInput {
  ids : list string;
}.

(** What [getImageDetailByTag] hands back for an image it found. *)
Record ImageDetail : Type := mkImageDetail {
  imageDigest : string;
}.

Record ImageQuery : Type := mkImageQuery {
  imageRegion : string;
  imageRepoName : string;
  imageTag : string;
}.

End Aws.

(** Asynchronous code: it may throw, and it talks to the world, which
    answers the three remote calls and keeps a journal of what the command
    did, in order. *)
Module Async.

Inductive Event : Type :=
| GetImageDetailByTag (q : Aws.ImageQuery)
| StartBuild (input : Aws.StartBuildInput)
| BatchGetBuilds (input : Aws.BatchGetBuildsInput)
| LoggerInfo (message : string).

Record World : Type := mkWorld {
  ecr : Aws.ImageQuery -> option Aws.ImageDetail;
  codeBuildStart : Aws.StartBuildInput -> Aws.StartBuildOutput;
  codeBuildBuilds : Aws.BatchGetBuildsInput -> Aws.BatchGetBuildsOutput;
  journal : list Event;
}.

Definition M (A : Type) : Type := World -> Js.Result A * World.

Definition ret {A} (a : A) : M A := fun w => (Js.ok a, w).

Definition bind {A B} (m : M A) (k : A -> M B) : M B :=
  fun w =>
    match m w with
    | (inl e, w') => (inl e, w')
    | (inr a, w') => k a w'
    end.

Definition raise {A} (e : Js.Exception) : M A := fun w => (Js.throw e, w).

(** A synchronous step inside asynchronous code. *)
Definition sync {A} (r : Js.Result A) : M A := fun w => (r, w).

Definition record (e : Event) (w : World) : World :=
  {| ecr := ecr w;
     codeBuildStart := codeBuildStart w;
     codeBuildBuilds := codeBuildBuilds w;
     journal := journal w ++ [e] |}.

(** Modelled from the spec: [getImageDetailByTag] of
    [bot/src/util/aws/ecr] is missing; the image-tag lookup helper
    either locates the tagged image or does not. *)
Definition getImageDetailByTag (q : Aws.ImageQuery)
  : M (option Aws.ImageDetail) :=
  fun w => (Js.ok (ecr w q), record (GetImageDetailByTag q) w).

(** [codeBuild.startBuild(input)] *)
Definition startBuild (input : Aws.StartBuildInput)
  : M Aws.StartBuildOutput :=
  fun w => (Js.ok (codeBuildStart w input), record (StartBuild input) w).

(** [codeBuild.batchGetBuilds(input)] *)
Definition batchGetBuilds (input : Aws.BatchGetBuildsInput)
  : M Aws.BatchGetBuildsOutput :=
  fun w => (Js.ok (codeBuildBuilds w input), record (BatchGetBuilds input) w).

(** [logger.info(message, ...)] *)
Definition loggerInfo (message : string) : M unit :=
  fun w => (Js.ok tt, record (LoggerInfo message) w).

(** The inputs of the builds started so far. *)
Fixpoint startedBuilds (evs : list Event) : list Aws.StartBuildInput :=
  match evs with
  | [] => []
  | StartBuild input :: rest => input :: startedBuilds rest
  | _ :: rest => startedBuilds rest
  end.

End Async.

Declare Scope js_scope.
Delimit Scope js_scope with js.
Notation "x <~ r ;; k" := (Js.rbind r (fun x => k))
  (at level 61, r at next level, right associativity) : js_scope.
Notation "x <- m ;; k" := (Async.bind m (fun x => k))
  (at level 61, m at next level, right associativity) : js_scope.
Notation "m ;;; k" := (Async.bind m (fun _ => k))
  (at level 61, right associativity) : js_scope.
Local Open Scope js_scope.

(* ===================================================================== *)
(** ** The command: data model *)
(* ===================================================================== *)

Module OperateEnv.

Import Js Temporal.

(** [ScriptOpEnv['OPERATION']] of [shared/lib/operate-env/op-env.ts] *)
Inductive Operation : Type :=
| Deploy
| Recreate
| Destroy
| OpStatus
| DbRecreate
| DbTakeSnapshot
| DbRecreateFrom.

Definition operationString (op : Operation) : string :=
  match op with
  | Deploy => "deploy"
  | Recreate => "recreate"
  | Destroy => "destroy"
  | OpStatus => "status"
  | DbRecreate => "db/recreate"
  | DbTakeSnapshot => "db/take-snapshot"
  | DbRecreateFrom => "db/recreate-from"
  end.

(** Modelled from the spec: the schemas of
    [shared/lib/operate-env/build-output] are missing; these are the
    supplementary output fields the template reads, each optional on the
    entry. *)
Record TfBuildOutput : Type := mkTfBuildOutput {
  apiURL : string;
  webURL : string;
  ecsClusterName : string;
  envRegion : string;
  apiTaskLogGroupName : string;
}.

Record GeneralBuildOutput : Type := mkGeneralBuildOutput {
  sourceZipKey : string;
}.

Record BuiltInfo : Type := mkBuiltInfo {
  timeRange : string;
}.

(** [entrySchema]; [runTaskBuildOutput] is only tested and interpolated
    into a template, so it is kept as the string it renders to. *)
Record Entry : Type := mkEntry {
  prNumber : Z;
  buildId : string;
  buildArn : string;
  webImageDigest : string;
  apiImageDigest : string;
  generalBuildOutput : option GeneralBuildOutput;
  tfBuildOutput : option TfBuildOutput;
  runTaskBuildOutput : option string;
}.

(** [CommentValues] *)
Record CommentValues : Type := mkCommentValues {
  buildStatus : string;
  statusChangedAt : Instant;
  deepLogLink : option string;
  builtInfo : option BuiltInfo;
}.

Record CreateParams : Type := mkCreateParams {
  operation : Operation;
}.

(** The fields of [ctx.env] the command reads. *)
Record Env : Type := mkEnv {
  API_REPO_NAME : string;
  WEB_REPO_NAME : string;
  OPERATE_ENV_PROJECT_NAME : string;
}.

(** The execution context: [issueNumber] is
    [ctx.commentPayload.issue.number]. *)
Record Context : Type := mkContext {
  env : Env;
  namespace : string;
  issueNumber : Z;
}.

Record GeneralEntry : Type := mkGeneralEntry {
  uuid : string;
}.

(** The three statuses of a reply command. *)
Inductive Status : Type :=
| undone
| success
| failure.

(** What [main] and [update] resolve to. *)
Record Reply : Type := mkReply {
  status : Member Status;
  entry : Entry;
  values : CommentValues;
}.

(** A line of a comment section; [None] is a falsy element ([null],
    [undefined] or the empty string) left in the array. *)
Definition Line : Type := option string.

(** The structured comment: [{ main, hints: [{ title, body: { main } }] }]. *)
Module Body.
Record t : Type := mk {
  main : list Line;
}.
End Body.

Module Comment.
Record HintItem : Type := mkHintItem {
  title : string;
  body : Body.t;
}.

Record t : Type := mk {
  main : list Line;
  hints : list HintItem;
}.
End Comment.

(** Modelled from the spec: [toCodeBuildEnv] of [shared/lib/util/aws-cdk]
    is missing; the start call takes an ordered list of name and value,
    one per field of the environment object. *)
Definition toCodeBuildEnv (fields : list (string * string))
  : list Aws.EnvironmentVariable :=
  map (fun f => Aws.mkEnvVar (fst f) (snd f)) fields.

(** The three environment builders hand their object to
    [toCodeBuildEnv]; each takes here the fields the command passes. *)
Definition dynamicRunScriptCodeBuildEnv (ENTRY_UUID : string) :=
  toCodeBuildEnv [("ENTRY_UUID", ENTRY_UUID)].

Definition scriptOpCodeBuildEnv (OPERATION : Operation) :=
  toCodeBuildEnv [("OPERATION", operationString OPERATION)].

Definition dynamicOpCodeBuildEnv
  (TERRAFORM_VERSION NAMESPACE API_REPO_SHA WEB_REPO_SHA : string) :=
  toCodeBuildEnv
    [("TERRAFORM_VERSION", TERRAFORM_VERSION); ("NAMESPACE", NAMESPACE);
     ("API_REPO_SHA", API_REPO_SHA); ("WEB_REPO_SHA", WEB_REPO_SHA)].

(** [const imageRegion = 'ap-northeast-1'] *)
Definition imageRegion : string := "ap-northeast-1".

(** Truthiness of an optional string: absent and empty are falsy. *)
Definition truthyString (x : option string) : bool :=
  match x with
  | Some s => truthy s
  | None => false
  end.

(** [x == null] *)
Definition isNull {A} (x : option A) : bool :=
  match x with
  | Some _ => false
  | None => true
  end.

(** A guard that throws on the absent case, after which the variable is
    read as present: [if (x == null) throw e], [if (!x) throw e] on an
    optional object and [if (typeof x !== 'string') throw e] on a field
    declared [string | undefined]. *)
Definition required {A} (x : option A) (e : Exception) : Result A :=
  match x with
  | Some a => ok a
  | None => throw e
  end.

(** The object literal [{ SUCCEEDED: 'success', FAILED: 'failure' }]. *)
Definition statusTable : list (string * Status) :=
  [("SUCCEEDED", success); ("FAILED", failure)].

(* ===================================================================== *)
(** ** The command: [createCmd] *)
(* ===================================================================== *)

Section createCmd.

(** [paramsGetter] is the argument of [createCmd]. *)
Variable paramsGetter : Env -> CreateParams.

(** Modelled from the spec: [renderDuration] and [renderTimestamp] of
    [bot/src/util/comment-render] and [renderECRImageDigest] of
    [bot/src/util/comment-render/aws] are missing; they render a duration,
    an instant and an image digest (region, digest, repository) as
    text. *)
Variable renderDuration : Duration -> string.
Variable renderTimestamp : Instant -> string.
Variable renderECRImageDigest : string -> string -> string -> string.

Definition main (ctx : Context) (_args : unit) (generalEntry : GeneralEntry)
  : Async.M Reply :=
  let prNumber := issueNumber ctx in
  apiImageDetail <-
    Async.getImageDetailByTag
      {| Aws.imageRegion := imageRegion;
         Aws.imageRepoName := API_REPO_NAME (env ctx);
         Aws.imageTag := namespace ctx |} ;;
  apiImageDetail <-
    Async.sync (required apiImageDetail (Error "Image for API not found.")) ;;
  webImageDetail <-
    Async.getImageDetailByTag
      {| Aws.imageRegion := imageRegion;
         Aws.imageRepoName := WEB_REPO_NAME (env ctx);
         Aws.imageTag := namespace ctx |} ;;
  webImageDetail <-
    Async.sync (required webImageDetail (Error "Image for WEB not found.")) ;;
  r <-
    Async.startBuild
      {| Aws.projectName := OPERATE_ENV_PROJECT_NAME (env ctx);
         Aws.environmentVariablesOverride :=
           dynamicRunScriptCodeBuildEnv (uuid generalEntry)
           ++ scriptOpCodeBuildEnv (operation (paramsGetter (env ctx)))
           ++ dynamicOpCodeBuildEnv "1.0.9" (namespace ctx)
                (Aws.imageDigest apiImageDetail)
                (Aws.imageDigest webImageDetail) |} ;;
  build <-
    Async.sync
      (required (Aws.build r)
         (TypeError "Response not found for CodeBuild.startBuild")) ;;
  build_buildStatus <-
    Async.sync
      (required (Aws.buildStatus build)
         (TypeError "CodeBuild response buildStatus is not string")) ;;
  build_id <-
    Async.sync
      (required (Aws.id build)
         (TypeError "CodeBuild response id is not string")) ;;
  build_arn <-
    Async.sync
      (required (Aws.arn build)
         (TypeError "CodeBuild response arn is not string")) ;;
  build_startTime <-
    Async.sync
      (required (Aws.startTime build)
         (TypeError "CodeBuild response startTime is not Date")) ;;
  let entry :=
    {| prNumber := prNumber;
       buildId := build_id;
       buildArn := build_arn;
       webImageDigest := Aws.imageDigest webImageDetail;
       apiImageDigest := Aws.imageDigest apiImageDetail;
       generalBuildOutput := None;
       tfBuildOutput := None;
       runTaskBuildOutput := None |} in
  let values :=
    {| buildStatus := build_buildStatus;
       statusChangedAt := toTemporalInstant build_startTime;
       deepLogLink := None;
       builtInfo := None |} in
  Async.ret {| status := Own undone; entry := entry; values := values |}.

Definition update (entry : Entry) (ctx : Context) : Async.M Reply :=
  r <- Async.batchGetBuilds {| Aws.ids := [buildId entry] |} ;;
  let builds := Aws.builds r in
  Async.loggerInfo "builds" ;;;
  builds <- Async.sync (required builds (TypeError "builds not found")) ;;
  let first := index builds 0 in
  let last := index builds (Z.of_nat (List.length builds) - 1) in
  last_buildStatus <- Async.sync (prop last "buildStatus" Aws.buildStatus) ;;
  last_buildStatus <-
    Async.sync
      (required last_buildStatus
         (TypeError "CodeBuild last buildStatus is not string")) ;;
  firstStartTime <- Async.sync (prop first "startTime" Aws.startTime) ;;
  lastStartTime <- Async.sync (prop last "startTime" Aws.startTime) ;;
  lastEndTime <- Async.sync (prop last "endTime" Aws.endTime) ;;
  firstStartTime <-
    Async.sync
      (required firstStartTime
         (TypeError "CodeBuild first startTime is not found")) ;;
  lastStartTime <-
    Async.sync
      (required lastStartTime
         (TypeError "CodeBuild last startTime is not found")) ;;
  let computeBuiltInfo : Async.M (option BuiltInfo) :=
    let timeRange :=
      renderDuration
        (until (toTemporalInstant firstStartTime)
           (toTemporalInstant (nullish lastEndTime lastStartTime))) in
    Async.ret (Some {| timeRange := timeRange |}) in
  Async.loggerInfo "Get last status." ;;;
  builtInfo <-
    (if String.eqb last_buildStatus "SUCCEEDED"
     then computeBuiltInfo
     else Async.ret None) ;;
  Async.loggerInfo "Built info." ;;;
  let values :=
    {| buildStatus := last_buildStatus;
       statusChangedAt :=
         toTemporalInstant (nullish lastEndTime lastStartTime);
       deepLogLink := optProp (optProp last Aws.logs) Aws.deepLink;
       builtInfo := builtInfo |} in
  Async.ret
    {| status := nullish (get statusTable last_buildStatus) (Own undone);
       entry := entry;
       values := values |}.

Definition constructComment
  (entry : Entry) (values : CommentValues) (ctx : Context)
  : Result Comment.t :=
  let region := "ap-northeast-1" in
  encodedBuildId <~ encodeURIComponent (buildId entry) ;;
  let buildUrl :=
    "https://" ++ region
    ++ ".console.aws.amazon.com/codesuite/codebuild/projects/"
    ++ OPERATE_ENV_PROJECT_NAME (env ctx)
    ++ "/build/" ++ encodedBuildId ++ "/?region=" ++ region in
  let builtInfo := builtInfo values in
  builtLine <~
    (if isNull builtInfo then ok None
     else
       builtInfo_timeRange <~ prop builtInfo "timeRange" timeRange ;;
       ok (Some ("- ビルド時間: " ++ builtInfo_timeRange))) ;;
  tfLines <~
    (if isNull (tfBuildOutput entry) then ok []
     else
       tf_apiURL <~ prop (tfBuildOutput entry) "apiURL" apiURL ;;
       tf_webURL <~ prop (tfBuildOutput entry) "webURL" webURL ;;
       ok [Some ("- api: " ++ tf_apiURL); Some ("- web: " ++ tf_webURL)]) ;;
  clusterLines <~
    (if isNull (tfBuildOutput entry) then ok []
     else
       tf_ecsClusterName <~
         prop (tfBuildOutput entry) "ecsClusterName" ecsClusterName ;;
       tf_envRegion <~ prop (tfBuildOutput entry) "envRegion" envRegion ;;
       ok [Some ("- ECS Cluster Name: [`" ++ tf_ecsClusterName
                 ++ "`](https://" ++ tf_envRegion
                 ++ ".console.aws.amazon.com/ecs/home#/clusters/"
                 ++ tf_ecsClusterName ++ "/services)")]) ;;
  sourceLine <~
    (if isNull (generalBuildOutput entry) then ok None
     else
       general_sourceZipKey <~
         prop (generalBuildOutput entry) "sourceZipKey" sourceZipKey ;;
       ok (Some ("- 使用したインフラ定義バージョン: "
                 ++ general_sourceZipKey))) ;;
  runTaskLines <~
    (if negb (isNull (tfBuildOutput entry))
        && truthyString (runTaskBuildOutput entry)
     then
       tf_envRegion <~ prop (tfBuildOutput entry) "envRegion" envRegion ;;
       tf_apiTaskLogGroupName <~
         prop (tfBuildOutput entry) "apiTaskLogGroupName"
           apiTaskLogGroupName ;;
       ok [Some ("[RunTask の詳細ログ (CloudWatch Logs)](https://"
                 ++ tf_envRegion
                 ++ ".console.aws.amazon.com/cloudwatch/home"
                 ++ "#logsV2:log-groups/log-group/"
                 ++ tf_apiTaskLogGroupName
                 ++ "/log-events/api" ++ "$252F" ++ "api" ++ "$252F"
                 ++ nullish (runTaskBuildOutput entry) "undefined" ++ ")")]
     else ok []) ;;
  let deepLine :=
    if truthyString (deepLogLink values)
    then Some ("- [ビルドの詳細ログ (CloudWatch Logs)]("
               ++ nullish (deepLogLink values) "undefined" ++ ")")
    else None in
  ok {| Comment.main :=
          [Some ("- ビルドステータス: " ++ buildStatus values ++ " ("
                 ++ renderTimestamp (statusChangedAt values) ++ ")");
           builtLine]
          ++ tfLines;
        Comment.hints :=
          [{| Comment.title := "詳細";
              Comment.body :=
                {| Body.main :=
                     [Some ("- ビルドID: [" ++ buildId entry ++ "]("
                            ++ buildUrl ++ ")")]
                     ++ clusterLines
                     ++ [Some ("- 使用した Web イメージダイジェスト: "
                               ++ renderECRImageDigest imageRegion
                                    (webImageDigest entry)
                                    (WEB_REPO_NAME (env ctx)));
                         Some ("- 使用した API イメージダイジェスト: "
                               ++ renderECRImageDigest imageRegion
                                    (apiImageDigest entry)
                                    (API_REPO_NAME (env ctx)));
                         sourceLine]
                     ++ runTaskLines
                     ++ [deepLine] |} |}] |}.

End createCmd.

End OperateEnv.

(* ===================================================================== *)
(** ** The renderer of [bot/src/util/comment-render] *)
(* ===================================================================== *)

Module CommentRender.

(** Modelled from the spec: [renderDuration] of
    [bot/src/util/comment-render] is missing; the spec has it turn the
    time elapsed between the job's start and end into a non-empty,
    human-readable summary.  Here the summary is the elapsed whole
    seconds in decimal, followed by the unit. *)
Definition renderDuration (d : Temporal.Duration) : string :=
  NilZero.string_of_int (Z.to_int (Temporal.seconds d)) ++ "s".

End CommentRender.

(* ===================================================================== *)
(** ** The environment schemas of [shared/lib/operate-env/op-env.ts] *)
(* ===================================================================== *)

(** What [RegExp.prototype.test] decides for a pattern built from
    character ranges, alternation, sequence and [*], without anchors or
    flags: whether some substring matches. *)
Module RegExp.

Inductive t : Type :=
| Never
| Empty
| Range (lo hi : N)
| Alt (a b : t)
| Seq (a b : t)
| Star (a : t).

(** Does the pattern match the empty string? *)
Fixpoint nullable (r : t) : bool :=
  match r with
  | Never => false
  | Empty => true
  | Range _ _ => false
  | Alt a b => nullable a || nullable b
  | Seq a b => nullable a && nullable b
  | Star _ => true
  end.

(** What is left to match once [c] has been read. *)
Fixpoint deriv (r : t) (c : ascii) : t :=
  match r with
  | Never => Never
  | Empty => Never
  | Range lo hi => if Js.between lo hi c then Empty else Never
  | Alt a b => Alt (deriv a c) (deriv b c)
  | Seq a b =>
      if nullable a then Alt (Seq (deriv a c) b) (deriv b c)
      else Seq (deriv a c) b
  | Star a => Seq (deriv a c) (Star a)
  end.

(** Some prefix of [s] matches. *)
Fixpoint matchHere (r : t) (s : string) : bool :=
  nullable r
  || match s with
     | EmptyString => false
     | String c rest => matchHere (deriv r c) rest
     end.

(** [r.test(s)]: a match starting at some index of [s]. *)
Fixpoint test (r : t) (s : string) : bool :=
  matchHere r s
  || match s with
     | EmptyString => false
     | String _ rest => test r rest
     end.

End RegExp.

Module OpEnv.

Import OperateEnv.

(** The literals of [scriptOpEnvSchema.OPERATION], in the order of the
    union. *)
Definition operations : list Operation :=
  [Deploy; Recreate; Destroy; OpStatus; DbRecreate; DbTakeSnapshot;
   DbRecreateFrom].

(** Parsing a string with the union of literals: the first literal equal
    to it, if any. *)
Definition parseOperation (s : string) : option Operation :=
  List.find (fun op => String.eqb (operationString op) s) operations.

(** [/[a-z][a-z0-9]*/] *)
Definition namespacePattern : RegExp.t :=
  RegExp.Seq (RegExp.Range 97 122)
    (RegExp.Star (RegExp.Alt (RegExp.Range 97 122) (RegExp.Range 48 57))).

(** [dynamicOpEnvSchema.NAMESPACE]: [z.string().regex(...)] accepts the
    strings the pattern tests true on. *)
Definition namespaceAccepted (s : string) : bool :=
  RegExp.test namespacePattern s.

End OpEnv.

(* ===================================================================== *)
(** ** Concrete runs *)
(* ===================================================================== *)

(** A concrete world, context and renderers on which the statements below
    are instantiated. *)
Module Sample.

Import Js Temporal OperateEnv.

Definition decimal (z : Z) : string := NilZero.string_of_int (Z.to_int z).

Definition renderDuration (d : Duration) : string :=
  decimal (seconds d) ++ "s".

Definition renderTimestamp (t : Instant) : string := decimal t.

Definition renderECRImageDigest (region digest repo : string) : string :=
  repo ++ "@" ++ digest.

Definition paramsGetter (_ : Env) : CreateParams :=
  {| operation := Deploy |}.

Definition ctx : Context :=
  {| env := {| API_REPO_NAME := "api-repo";
               WEB_REPO_NAME := "web-repo";
               OPERATE_ENV_PROJECT_NAME := "operate-env" |};
     namespace := "pr42";
     issueNumber := 42 |}.

Definition generalEntry : GeneralEntry :=
  {| uuid := "0b0c2f0e-1111-4222-8333-444455556666" |}.

Definition anEntry : Entry :=
  {| prNumber := 42;
     buildId := "operate-env:7f3a";
     buildArn := "arn:aws:codebuild:ap-northeast-1:1:build/operate-env:7f3a";
     webImageDigest := "sha256:web";
     apiImageDigest := "sha256:api";
     generalBuildOutput := None;
     tfBuildOutput := None;
     runTaskBuildOutput := None |}.

(** A job record with the given status, started at 1000 ms and, when
    [finished], ended at 61000 ms. *)
Definition job (st : option string) (finished : bool) : Aws.Build :=
  {| Aws.id := Some "operate-env:7f3a";
     Aws.arn :=
       Some "arn:aws:codebuild:ap-northeast-1:1:build/operate-env:7f3a";
     Aws.buildStatus := st;
     Aws.startTime := Some 1000;
     Aws.endTime := if finished then Some 61000 else None;
     Aws.logs := Some {| Aws.deepLink := Some "https://logs.example/7f3a" |} |}.

(** Both images are tagged; every query answers [builds]. *)
Definition world (builds : option (list Aws.Build)) : Async.World :=
  {| Async.ecr :=
       fun q =>
         if String.eqb (Aws.imageRepoName q) "api-repo"
         then Some {| Aws.imageDigest := "sha256:api" |}
         else Some {| Aws.imageDigest := "sha256:web" |};
     Async.codeBuildStart :=
       fun _ => {| Aws.build := Some (job (Some "IN_PROGRESS") false) |};
     Async.codeBuildBuilds := fun _ => {| Aws.builds := builds |};
     Async.journal := [] |}.

(** The same, but the WEB image is not tagged. *)
Definition worldWithoutWeb : Async.World :=
  {| Async.ecr :=
       fun q =>
         if String.eqb (Aws.imageRepoName q) "api-repo"
         then Some {| Aws.imageDigest := "sha256:api" |}
         else None;
     Async.codeBuildStart :=
       fun _ => {| Aws.build := Some (job (Some "IN_PROGRESS") false) |};
     Async.codeBuildBuilds := fun _ => {| Aws.builds := None |};
     Async.journal := [] |}.

(** An Entry after reconciliation has appended every supplementary
    output. *)
Definition fullEntry : Entry :=
  {| prNumber := 42;
     buildId := "operate-env:7f3a";
     buildArn := "arn:aws:codebuild:ap-northeast-1:1:build/operate-env:7f3a";
     webImageDigest := "sha256:web";
     apiImageDigest := "sha256:api";
     generalBuildOutput := Some {| sourceZipKey := "source/v1.zip" |};
     tfBuildOutput :=
       Some {| apiURL := "https://api-pr42.example";
               webURL := "https://pr42.example";
               ecsClusterName := "violet-pr42";
               envRegion := "ap-northeast-1";
               apiTaskLogGroupName := "violet-pr42-api" |};
     runTaskBuildOutput := Some "3c1f" |}.

Definition fullValues : CommentValues :=
  {| buildStatus := "SUCCEEDED";
     statusChangedAt := 61000000000;
     deepLogLink := Some "https://logs.example/7f3a";
     builtInfo := Some {| timeRange := "60s" |} |}.

(** What [main] returns in [world]. *)
Definition firstReply : Reply :=
  {| status := Own undone;
     entry := anEntry;
     values :=
       {| buildStatus := "IN_PROGRESS";
          statusChangedAt := 1000000000;
          deepLogLink := None;
          builtInfo := None |} |}.

(** No image is tagged. *)
Definition worldWithoutImages : Async.World :=
  {| Async.ecr := fun _ => None;
     Async.codeBuildStart := fun _ => {| Aws.build := None |};
     Async.codeBuildBuilds := fun _ => {| Aws.builds := None |};
     Async.journal := [] |}.

(** The start call answers with a build that lacks its [arn]. *)
Definition worldWithoutArn : Async.World :=
  {| Async.ecr :=
       fun q =>
         if String.eqb (Aws.imageRepoName q) "api-repo"
         then Some {| Aws.imageDigest := "sha256:api" |}
         else Some {| Aws.imageDigest := "sha256:web" |};
     Async.codeBuildStart :=
       fun _ =>
         {| Aws.build :=
              Some {| Aws.id := Some "operate-env:7f3a";
                      Aws.arn := None;
                      Aws.buildStatus := Some "IN_PROGRESS";
                      Aws.startTime := Some 1000;
                      Aws.endTime := None;
                      Aws.logs := None |} |};
     Async.codeBuildBuilds := fun _ => {| Aws.builds := None |};
     Async.journal := [] |}.

(** The code unit U+D800 alone. *)
Definition loneSurrogate : string :=
  String (ascii_of_N 237) (String (ascii_of_N 160) (String (ascii_of_N 128) "")).

End Sample.

(* ===================================================================== *)
(** ** Properties of [update] *)
(* ===================================================================== *)

Module UpdateFacts.

Import Js Temporal OperateEnv.

Ltac run_async :=
  unfold Async.bind, Async.batchGetBuilds, Async.getImageDetailByTag,
    Async.startBuild, Async.loggerInfo, Async.sync, Async.ret, Async.raise;
  cbn [fst snd ok throw Async.record Async.ecr Async.codeBuildStart
       Async.codeBuildBuilds Async.journal].

Lemma index_first {A} (x : A) (xs : list A) : index (x :: xs) 0 = Some x.
Proof. reflexivity. Qed.

Lemma index_last_nil {A} :
  index (@nil A) (Z.of_nat (List.length (@nil A)) - 1) = None.
Proof. reflexivity. Qed.

Lemma last_cons {A} (xs : list A) :
  forall x y, List.last (y :: xs) x = List.last xs y.
Proof.
  induction xs as [| z zs IH]; intros x y; [reflexivity |].
  change (List.last (y :: z :: zs) x) with (List.last (z :: zs) x).
  rewrite (IH x z), (IH y z). reflexivity.
Qed.

Lemma index_last_cons {A} (x : A) (xs : list A) :
  index (x :: xs) (Z.of_nat (List.length (x :: xs)) - 1)
  = Some (List.last xs x).
Proof.
  unfold index.
  destruct (Z.ltb_spec (Z.of_nat (List.length (x :: xs)) - 1) 0) as [H | H].
  - cbn [List.length] in H. lia.
  - replace (Z.to_nat (Z.of_nat (List.length (x :: xs)) - 1))
      with (List.length xs) by (cbn [List.length]; lia).
    clear H. revert x.
    induction xs as [| y ys IH]; intro x; [reflexivity |].
    cbn [List.length nth_error]. rewrite IH, last_cons. reflexivity.
Qed.

(** The whole seconds between two dates. *)
Lemma until_dates_seconds (a b : Date) :
  seconds (until (toTemporalInstant a) (toTemporalInstant b))
  = Z.quot (b - a) 1000.
Proof.
  unfold until, toTemporalInstant. cbn [seconds].
  replace (b * 1000000 - a * 1000000) with ((b - a) * 1000000) by lia.
  change 1000000000 with (1000 * 1000000).
  apply Z.quot_mul_cancel_r; lia.
Qed.

Section WithRenderer.

Variable renderDuration : Duration -> string.
Variable entry : Entry.
Variable ctx : Context.

(** The outcome of [update] on a list of job records whose last record has
    a status and whose first and last records have a start time. *)
Lemma update_returns (w : Async.World) bs first last st fs ls :
  Aws.builds (Async.codeBuildBuilds w {| Aws.ids := [buildId entry] |})
  = Some bs ->
  index bs 0 = Some first ->
  index bs (Z.of_nat (List.length bs) - 1) = Some last ->
  Aws.buildStatus last = Some st ->
  Aws.startTime first = Some fs ->
  Aws.startTime last = Some ls ->
  fst (update renderDuration entry ctx w)
  = inr {| status := nullish (get statusTable st) (Own undone);
           OperateEnv.entry := entry;
           values :=
             {| buildStatus := st;
                statusChangedAt :=
                  toTemporalInstant (nullish (Aws.endTime last) ls);
                deepLogLink := optProp (Aws.logs last) Aws.deepLink;
                builtInfo :=
                  if String.eqb st "SUCCEEDED"
                  then Some {| timeRange :=
                                 renderDuration
                                   (until (toTemporalInstant fs)
                                      (toTemporalInstant
                                         (nullish (Aws.endTime last) ls))) |}
                  else None |} |}.
Proof.
  intros Hb Hf Hl Hst Hfs Hls.
  unfold update. run_async.
  rewrite Hb. cbn [required ok throw]. rewrite Hf, Hl.
  cbn [prop ok]. rewrite Hst, Hfs, Hls. cbn [required ok optProp].
  destruct (String.eqb st "SUCCEEDED"); reflexivity.
Qed.

(** Case analysis on every test [update] makes, in source order. *)
Ltac update_cases :=
  repeat match goal with
    | |- context [required ?x _] =>
        destruct x eqn:?; cbn [required ok throw fst snd]
    | |- context [prop ?x _ _] =>
        destruct x eqn:?; cbn [prop ok throw fst snd]
    | |- context [if String.eqb ?a ?b then _ else _] =>
        destruct (String.eqb a b) eqn:?; cbn [ok throw fst snd]
    end.

(** [update] only reads the world: the remote answers are the same after
    the call. *)
Lemma update_keeps_answers (w : Async.World) :
  let w' := snd (update renderDuration entry ctx w) in
  Async.ecr w' = Async.ecr w
  /\ Async.codeBuildStart w' = Async.codeBuildStart w
  /\ Async.codeBuildBuilds w' = Async.codeBuildBuilds w.
Proof.
  unfold update. run_async. update_cases; repeat split; reflexivity.
Qed.

(** The outcome of [update] is a function of the answer to its query. *)
Lemma update_reads_answer_only (w1 w2 : Async.World) :
  Async.codeBuildBuilds w1 {| Aws.ids := [buildId entry] |}
  = Async.codeBuildBuilds w2 {| Aws.ids := [buildId entry] |} ->
  fst (update renderDuration entry ctx w1)
  = fst (update renderDuration entry ctx w2).
Proof.
  intros H. unfold update. run_async. rewrite H.
  update_cases; reflexivity.
Qed.

(** The status table answers only its two own keys and the names every
    object inherits. *)
Lemma statusTable_unknown (st : string) :
  st <> "SUCCEEDED" -> st <> "FAILED" ->
  inList st objectPrototypeKeys = false ->
  get statusTable st = None.
Proof.
  intros H1 H2 H3. unfold get, statusTable. cbn [ownProperty].
  destruct (String.eqb_spec "SUCCEEDED" st) as [E | _]; [congruence |].
  destruct (String.eqb_spec "FAILED" st) as [E | _]; [congruence |].
  rewrite H3. reflexivity.
Qed.

(** A status string that is neither of the two terminal ones nor the name
    of an inherited member is reported as [undone]. *)
Lemma update_unrecognized_status_undone
  (w : Async.World) bs first last st fs ls :
  Aws.builds (Async.codeBuildBuilds w {| Aws.ids := [buildId entry] |})
  = Some bs ->
  index bs 0 = Some first ->
  index bs (Z.of_nat (List.length bs) - 1) = Some last ->
  Aws.buildStatus last = Some st ->
  Aws.startTime first = Some fs ->
  Aws.startTime last = Some ls ->
  st <> "SUCCEEDED" -> st <> "FAILED" ->
  inList st objectPrototypeKeys = false ->
  exists v,
    fst (update renderDuration entry ctx w) = inr v
    /\ status v = Own undone.
Proof.
  intros Hb Hf Hl Hst Hfs Hls H1 H2 H3.
  eexists. split.
  - eapply update_returns; eassumption.
  - cbn [status]. rewrite (statusTable_unknown st H1 H2 H3). reflexivity.
Qed.

(** C1 (evaluation at the failing input): a job record whose status string
    is ["constructor"], neither SUCCEEDED nor FAILED, makes [update]
    return as status the member the status table inherits under that
    name, not [undone]. *)
Theorem update_status_constructor_not_undone :
  exists v,
    fst (update renderDuration entry ctx
           (Sample.world (Some [Sample.job (Some "constructor") false])))
    = inr v
    /\ status v = Inherited "constructor"
    /\ status v <> Own undone.
Proof.
  eexists. split; [reflexivity |].
  split; [reflexivity | discriminate].
Qed.

(** C2: [update] is idempotent.  A call made in a world that answers the
    query as before returns the same outcome, hence the same status and
    the same Values; and [update] itself does not change that answer, so
    calling it again right away returns the same outcome. *)
Theorem update_idempotent (w w' : Async.World) :
  Async.codeBuildBuilds w' {| Aws.ids := [buildId entry] |}
  = Async.codeBuildBuilds w {| Aws.ids := [buildId entry] |} ->
  fst (update renderDuration entry ctx w')
  = fst (update renderDuration entry ctx w)
  /\ fst (update renderDuration entry ctx
            (snd (update renderDuration entry ctx w)))
     = fst (update renderDuration entry ctx w).
Proof.
  intros H. split.
  - apply update_reads_answer_only. exact H.
  - apply update_reads_answer_only.
    destruct (update_keeps_answers w) as (_ & _ & E).
    rewrite E. reflexivity.
Qed.

(** C3: a malformed job record, one whose status is not a string or whose
    start time is missing, makes [update] throw one of its TypeErrors; it
    does not return. *)
Theorem update_malformed_record_throws (w : Async.World) bs first last :
  Aws.builds (Async.codeBuildBuilds w {| Aws.ids := [buildId entry] |})
  = Some bs ->
  index bs 0 = Some first ->
  index bs (Z.of_nat (List.length bs) - 1) = Some last ->
  Aws.buildStatus last = None
  \/ Aws.startTime first = None
  \/ Aws.startTime last = None ->
  exists m,
    fst (update renderDuration entry ctx w) = inl (TypeError m)
    /\ In m ["CodeBuild last buildStatus is not string";
             "CodeBuild first startTime is not found";
             "CodeBuild last startTime is not found"].
Proof.
  intros Hb Hf Hl Hbad.
  unfold update. run_async.
  rewrite Hb. cbn [required ok throw]. rewrite Hf, Hl. cbn [prop ok].
  destruct (Aws.buildStatus last) as [st |] eqn:Est;
    cbn [required ok throw fst].
  2: { eexists. split; [reflexivity | cbn; auto]. }
  destruct (Aws.startTime first) as [fs |] eqn:Efs;
    cbn [required ok throw fst].
  2: { eexists. split; [reflexivity | cbn; auto]. }
  destruct (Aws.startTime last) as [ls |] eqn:Els;
    cbn [required ok throw fst].
  2: { eexists. split; [reflexivity | cbn; auto]. }
  destruct Hbad as [H | [H | H]]; discriminate H.
Qed.

(** C5 (amended): for a job record in a terminal state whose start times
    are present, [update] returns the corresponding terminal status and
    the record's logs deep link; [builtInfo] carries the duration when the
    job SUCCEEDED and is null when it FAILED. *)
Theorem update_terminal_status (w : Async.World) bs first last st fs ls :
  Aws.builds (Async.codeBuildBuilds w {| Aws.ids := [buildId entry] |})
  = Some bs ->
  index bs 0 = Some first ->
  index bs (Z.of_nat (List.length bs) - 1) = Some last ->
  Aws.buildStatus last = Some st ->
  Aws.startTime first = Some fs ->
  Aws.startTime last = Some ls ->
  st = "SUCCEEDED" \/ st = "FAILED" ->
  exists v,
    fst (update renderDuration entry ctx w) = inr v
    /\ status v
       = Own (if String.eqb st "SUCCEEDED" then success else failure)
    /\ deepLogLink (values v) = optProp (Aws.logs last) Aws.deepLink
    /\ builtInfo (values v)
       = if String.eqb st "SUCCEEDED"
         then Some {| timeRange :=
                        renderDuration
                          (until (toTemporalInstant fs)
                             (toTemporalInstant
                                (nullish (Aws.endTime last) ls))) |}
         else None.
Proof.
  intros Hb Hf Hl Hst Hfs Hls Hterm.
  eexists. split.
  - eapply update_returns; eassumption.
  - cbn [status values deepLogLink builtInfo].
    destruct Hterm as [-> | ->]; repeat split; reflexivity.
Qed.

(** C9: the Entry [update] returns is the Entry it was given. *)
Theorem update_keeps_entry (w : Async.World) (v : Reply) :
  fst (update renderDuration entry ctx w) = inr v ->
  OperateEnv.entry v = entry.
Proof.
  unfold update. run_async.
  update_cases; intros H; try discriminate H;
    injection H as <-; reflexivity.
Qed.

(** C10: on a non-null, empty list of job records [update] gets past the
    null check and throws while reading [buildStatus] of the undefined
    last element: it neither returns nor throws one of the TypeErrors it
    builds itself. *)
Theorem update_empty_builds_reads_undefined (w : Async.World) :
  Aws.builds (Async.codeBuildBuilds w {| Aws.ids := [buildId entry] |})
  = Some [] ->
  fst (update renderDuration entry ctx w)
  = inl (PropertyOfUndefined "buildStatus")
  /\ (forall v, fst (update renderDuration entry ctx w) <> inr v)
  /\ (forall m, fst (update renderDuration entry ctx w) <> inl (TypeError m)).
Proof.
  intros Hb.
  assert (E : fst (update renderDuration entry ctx w)
              = inl (PropertyOfUndefined "buildStatus")).
  { unfold update. run_async. rewrite Hb. reflexivity. }
  rewrite E. repeat split; intros; discriminate.
Qed.

End WithRenderer.

(** C4: when the job reports SUCCEEDED and the start and end timestamps
    are present, [update] returns status [success] and a [builtInfo] whose
    [timeRange] is the rendering of the time from the first start to the
    last end: with the renderer modelled from the spec, the whole seconds
    between the two dates followed by the unit, which is never the empty
    string. *)
Theorem update_succeeded_builtInfo
  (entry : Entry) (ctx : Context) (w : Async.World) bs first last fs ls le :
  Aws.builds (Async.codeBuildBuilds w {| Aws.ids := [buildId entry] |})
  = Some bs ->
  index bs 0 = Some first ->
  index bs (Z.of_nat (List.length bs) - 1) = Some last ->
  Aws.buildStatus last = Some "SUCCEEDED" ->
  Aws.startTime first = Some fs ->
  Aws.startTime last = Some ls ->
  Aws.endTime last = Some le ->
  exists v t,
    fst (update CommentRender.renderDuration entry ctx w) = inr v
    /\ status v = Own success
    /\ builtInfo (values v) = Some {| timeRange := t |}
    /\ t = CommentRender.renderDuration
             (until (toTemporalInstant fs) (toTemporalInstant le))
    /\ t = NilZero.string_of_int (Z.to_int (Z.quot (le - fs) 1000)) ++ "s"
    /\ t <> "".
Proof.
  intros Hb Hf Hl Hst Hfs Hls Hle.
  eexists. eexists. split.
  - eapply (update_returns CommentRender.renderDuration); eassumption.
  - cbn [status values builtInfo]. rewrite Hle. cbn [nullish String.eqb].
    split; [reflexivity |]. split; [reflexivity |].
    split; [reflexivity |].
    unfold CommentRender.renderDuration. rewrite until_dates_seconds.
    split; [reflexivity |].
    destruct (NilZero.string_of_int (Z.to_int (Z.quot (le - fs) 1000)));
      discriminate.
Qed.

(** C5 (counterexample): for a FAILED job with both timestamps [update]
    returns [failure] without any [builtInfo], so no duration is
    computed. *)
Lemma update_failed_without_builtInfo :
  ~ exists v info,
      fst (update Sample.renderDuration Sample.anEntry Sample.ctx
             (Sample.world (Some [Sample.job (Some "FAILED") true])))
      = inr v
      /\ status v = Own failure
      /\ builtInfo (values v) = Some info.
Proof.
  intros (v & info & H & _ & Hinfo).
  vm_compute in H. injection H as <-. discriminate Hinfo.
Qed.

Lemma sample_renderDuration_nonempty (d : Duration) :
  Sample.renderDuration d <> "".
Proof.
  unfold Sample.renderDuration.
  destruct (Sample.decimal (seconds d)); discriminate.
Qed.

(** Two calls in a row on a finished job. *)
Lemma update_idempotent_witness :
  fst (update Sample.renderDuration Sample.anEntry Sample.ctx
         (snd (update Sample.renderDuration Sample.anEntry Sample.ctx
                 (Sample.world (Some [Sample.job (Some "SUCCEEDED") true])))))
  = fst (update Sample.renderDuration Sample.anEntry Sample.ctx
           (Sample.world (Some [Sample.job (Some "SUCCEEDED") true])))
  /\ fst (update Sample.renderDuration Sample.anEntry Sample.ctx
            (snd (update Sample.renderDuration Sample.anEntry Sample.ctx
                    (Sample.world
                       (Some [Sample.job (Some "SUCCEEDED") true])))))
     = fst (update Sample.renderDuration Sample.anEntry Sample.ctx
              (Sample.world (Some [Sample.job (Some "SUCCEEDED") true]))).
Proof.
  exact (update_idempotent Sample.renderDuration Sample.anEntry Sample.ctx
           (Sample.world (Some [Sample.job (Some "SUCCEEDED") true]))
           (snd (update Sample.renderDuration Sample.anEntry Sample.ctx
                   (Sample.world
                      (Some [Sample.job (Some "SUCCEEDED") true]))))
           eq_refl).
Defined.

(** A record without a status. *)
Lemma update_malformed_record_throws_witness :
  Aws.buildStatus (Sample.job None false) = None
  /\ exists m,
       fst (update Sample.renderDuration Sample.anEntry Sample.ctx
              (Sample.world (Some [Sample.job None false])))
       = inl (TypeError m)
       /\ In m ["CodeBuild last buildStatus is not string";
                "CodeBuild first startTime is not found";
                "CodeBuild last startTime is not found"].
Proof.
  split; [reflexivity |].
  apply (update_malformed_record_throws
           Sample.renderDuration Sample.anEntry Sample.ctx
           (Sample.world (Some [Sample.job None false]))
           [Sample.job None false]
           (Sample.job None false) (Sample.job None false)).
  - reflexivity.
  - reflexivity.
  - reflexivity.
  - left. reflexivity.
Defined.

(** A job that succeeded after sixty seconds. *)
Lemma update_succeeded_builtInfo_witness :
  exists v t,
    fst (update CommentRender.renderDuration Sample.anEntry Sample.ctx
           (Sample.world (Some [Sample.job (Some "SUCCEEDED") true])))
    = inr v
    /\ status v = Own success
    /\ builtInfo (values v) = Some {| timeRange := t |}
    /\ t = CommentRender.renderDuration
             (until (toTemporalInstant 1000) (toTemporalInstant 61000))
    /\ t = "60s"
    /\ t <> "".
Proof.
  apply (update_succeeded_builtInfo
           Sample.anEntry Sample.ctx
           (Sample.world (Some [Sample.job (Some "SUCCEEDED") true]))
           [Sample.job (Some "SUCCEEDED") true]
           (Sample.job (Some "SUCCEEDED") true)
           (Sample.job (Some "SUCCEEDED") true)
           1000 1000 61000).
  - reflexivity.
  - reflexivity.
  - reflexivity.
  - reflexivity.
  - reflexivity.
  - reflexivity.
  - reflexivity.
Defined.

(** A job that failed. *)
Lemma update_terminal_status_witness :
  exists v,
    fst (update Sample.renderDuration Sample.anEntry Sample.ctx
           (Sample.world (Some [Sample.job (Some "FAILED") true])))
    = inr v
    /\ status v = Own failure
    /\ deepLogLink (values v) = Some "https://logs.example/7f3a"
    /\ builtInfo (values v) = None.
Proof.
  apply (update_terminal_status
           Sample.renderDuration Sample.anEntry Sample.ctx
           (Sample.world (Some [Sample.job (Some "FAILED") true]))
           [Sample.job (Some "FAILED") true]
           (Sample.job (Some "FAILED") true)
           (Sample.job (Some "FAILED") true)
           "FAILED" 1000 1000).
  - reflexivity.
  - reflexivity.
  - reflexivity.
  - reflexivity.
  - reflexivity.
  - reflexivity.
  - right. reflexivity.
Defined.

(** A job still in progress: [update] returns, with the Entry it got. *)
Lemma update_keeps_entry_witness :
  exists v,
    fst (update Sample.renderDuration Sample.anEntry Sample.ctx
           (Sample.world (Some [Sample.job (Some "IN_PROGRESS") false])))
    = inr v
    /\ entry v = Sample.anEntry.
Proof.
  eexists. split.
  - reflexivity.
  - apply (update_keeps_entry
             Sample.renderDuration Sample.anEntry Sample.ctx
             (Sample.world (Some [Sample.job (Some "IN_PROGRESS") false]))).
    reflexivity.
Defined.

(** The query answers with an empty list. *)
Lemma update_empty_builds_reads_undefined_witness :
  fst (update Sample.renderDuration Sample.anEntry Sample.ctx
         (Sample.world (Some [])))
  = inl (PropertyOfUndefined "buildStatus").
Proof.
  apply (update_empty_builds_reads_undefined
           Sample.renderDuration Sample.anEntry Sample.ctx
           (Sample.world (Some []))).
  reflexivity.
Defined.

End UpdateFacts.

(* ===================================================================== *)
(** ** Properties of [main] *)
(* ===================================================================== *)

Module MainFacts.

Import Js Temporal OperateEnv.
Import UpdateFacts.

Local Abbreviation apiQuery ctx :=
  {| Aws.imageRegion := imageRegion;
     Aws.imageRepoName := API_REPO_NAME (env ctx);
     Aws.imageTag := namespace ctx |}.

Local Abbreviation webQuery ctx :=
  {| Aws.imageRegion := imageRegion;
     Aws.imageRepoName := WEB_REPO_NAME (env ctx);
     Aws.imageTag := namespace ctx |}.

Lemma startedBuilds_app (xs ys : list Async.Event) :
  Async.startedBuilds (xs ++ ys)%list
  = (Async.startedBuilds xs ++ Async.startedBuilds ys)%list.
Proof.
  induction xs as [| x xs IH]; [reflexivity |].
  destruct x; cbn [app Async.startedBuilds]; rewrite IH; reflexivity.
Qed.

Section WithParams.

Variable paramsGetter : Env -> CreateParams.
Variable ctx : Context.
Variable args : unit.
Variable generalEntry : GeneralEntry.

(** C6: when the API image or the WEB image is not found by its tag,
    [main] throws the matching "not found" Error, the API one first, and
    no build has been started by then; no Entry is returned. *)
Theorem main_missing_image_throws (w : Async.World) :
  Async.ecr w (apiQuery ctx) = None \/ Async.ecr w (webQuery ctx) = None ->
  fst (main paramsGetter ctx args generalEntry w)
  = inl (Error (if isNull (Async.ecr w (apiQuery ctx))
                then "Image for API not found."
                else "Image for WEB not found."))
  /\ Async.startedBuilds
       (Async.journal (snd (main paramsGetter ctx args generalEntry w)))
     = Async.startedBuilds (Async.journal w).
Proof.
  intros H. unfold main. run_async.
  destruct (Async.ecr w (apiQuery ctx)) as [a |] eqn:Ea;
    cbn [required isNull ok throw fst snd Async.journal Async.record].
  - destruct H as [H | H]; [discriminate H |].
    rewrite H. cbn [required ok throw fst snd Async.journal Async.record].
    split; [reflexivity |].
    rewrite !startedBuilds_app. cbn [Async.startedBuilds].
    rewrite !app_nil_r. reflexivity.
  - split; [reflexivity |].
    rewrite startedBuilds_app. cbn [Async.startedBuilds].
    rewrite app_nil_r. reflexivity.
Qed.

(** C7: when both images are found and the started build comes back with
    status, id, arn and start time, [main] returns status [undone], an
    Entry made of the PR number, the build's id and arn and the two
    resolved digests, and Values holding the build's status and start
    time. *)
Theorem main_returns_undone (w : Async.World) apiImage webImage b st i a t :
  Async.ecr w (apiQuery ctx) = Some apiImage ->
  Async.ecr w (webQuery ctx) = Some webImage ->
  (forall input,
      Aws.projectName input = OPERATE_ENV_PROJECT_NAME (env ctx) ->
      Async.codeBuildStart w input = {| Aws.build := Some b |}) ->
  Aws.buildStatus b = Some st ->
  Aws.id b = Some i ->
  Aws.arn b = Some a ->
  Aws.startTime b = Some t ->
  fst (main paramsGetter ctx args generalEntry w)
  = inr {| status := Own undone;
           entry :=
             {| prNumber := issueNumber ctx;
                buildId := i;
                buildArn := a;
                webImageDigest := Aws.imageDigest webImage;
                apiImageDigest := Aws.imageDigest apiImage;
                generalBuildOutput := None;
                tfBuildOutput := None;
                runTaskBuildOutput := None |};
           values :=
             {| buildStatus := st;
                statusChangedAt := toTemporalInstant t;
                deepLogLink := None;
                builtInfo := None |} |}.
Proof.
  intros Ha Hw Hstart Hst Hi Harn Ht.
  unfold main. run_async.
  rewrite Ha. cbn [required ok throw]. rewrite Hw. cbn [required ok throw].
  rewrite Hstart by reflexivity.
  cbn [Aws.build required ok throw].
  rewrite Hst, Hi, Harn, Ht. reflexivity.
Qed.

End WithParams.

(** The WEB image is missing: the second lookup fails and nothing is
    started. *)
Lemma main_missing_image_throws_witness :
  fst (main Sample.paramsGetter Sample.ctx tt Sample.generalEntry
         Sample.worldWithoutWeb)
  = inl (Error "Image for WEB not found.")
  /\ Async.startedBuilds
       (Async.journal
          (snd (main Sample.paramsGetter Sample.ctx tt Sample.generalEntry
                  Sample.worldWithoutWeb)))
     = [].
Proof.
  apply (main_missing_image_throws
           Sample.paramsGetter Sample.ctx tt Sample.generalEntry
           Sample.worldWithoutWeb).
  right. reflexivity.
Defined.

(** Both images are tagged and the build starts. *)
Lemma main_returns_undone_witness :
  fst (main Sample.paramsGetter Sample.ctx tt Sample.generalEntry
         (Sample.world None))
  = inr {| status := Own undone;
           entry :=
             {| prNumber := 42;
                buildId := "operate-env:7f3a";
                buildArn :=
                  "arn:aws:codebuild:ap-northeast-1:1:build/operate-env:7f3a";
                webImageDigest := "sha256:web";
                apiImageDigest := "sha256:api";
                generalBuildOutput := None;
                tfBuildOutput := None;
                runTaskBuildOutput := None |};
           values :=
             {| buildStatus := "IN_PROGRESS";
                statusChangedAt := 1000000000;
                deepLogLink := None;
                builtInfo := None |} |}.
Proof.
  apply (main_returns_undone
           Sample.paramsGetter Sample.ctx tt Sample.generalEntry
           (Sample.world None)
           {| Aws.imageDigest := "sha256:api" |}
           {| Aws.imageDigest := "sha256:web" |}
           (Sample.job (Some "IN_PROGRESS") false)
           "IN_PROGRESS" "operate-env:7f3a"
           "arn:aws:codebuild:ap-northeast-1:1:build/operate-env:7f3a"
           1000).
  - reflexivity.
  - reflexivity.
  - intros input _. reflexivity.
  - reflexivity.
  - reflexivity.
  - reflexivity.
  - reflexivity.
Defined.

End MainFacts.

(* ===================================================================== *)
(** ** Properties of [constructComment] *)
(* ===================================================================== *)

Module CommentFacts.

Import Js Temporal OperateEnv.

(** [encodeURIComponent] returns exactly on the strings without an
    unpaired surrogate. *)
Lemma encodeURIComponent_wellFormed (s : string) :
  wellFormed s = true -> exists r, encodeURIComponent s = inr r.
Proof.
  induction s as [| c rest IH]; intros H.
  - exists EmptyString. reflexivity.
  - cbn [wellFormed] in H. apply andb_true_iff in H as [Hc Hrest].
    apply negb_true_iff in Hc.
    destruct (IH Hrest) as [r Hr].
    cbn [encodeURIComponent]. rewrite Hc, Hr.
    destruct (uriUnescaped c); eexists; reflexivity.
Qed.

Lemma encodeURIComponent_illFormed (s : string) :
  wellFormed s = false -> encodeURIComponent s = inl URIError.
Proof.
  induction s as [| c rest IH]; intros H; [discriminate H |].
  cbn [wellFormed] in H. cbn [encodeURIComponent].
  assert (U : uriUnescaped c = true -> surrogateAt c rest = false).
  { intros Hu. unfold surrogateAt.
    destruct (N.eqb_spec (N_of_ascii c) 237) as [E | _]; [| reflexivity].
    apply (f_equal ascii_of_N) in E. rewrite ascii_N_embedding in E.
    subst c. discriminate Hu. }
  destruct (uriUnescaped c) eqn:Hu.
  - rewrite (U eq_refl) in H. cbn [negb andb] in H.
    rewrite (IH H). reflexivity.
  - destruct (surrogateAt c rest); [reflexivity |].
    cbn [negb andb] in H. rewrite (IH H). reflexivity.
Qed.

Section WithRenderers.

Variable renderTimestamp : Instant -> string.
Variable renderECRImageDigest : string -> string -> string -> string.

(** C8 (amended): on every Entry whose [buildId] holds no unpaired
    surrogate, and every Values, with any of the optional fields present
    or absent, [constructComment] does not throw: it returns a comment
    whose main list starts with the status line and whose hints are the
    one detail section. *)
Theorem constructComment_total
  (entry : Entry) (values : CommentValues) (ctx : Context) :
  wellFormed (buildId entry) = true ->
  exists c,
    constructComment renderTimestamp renderECRImageDigest entry values ctx
    = inr c
    /\ List.hd None (Comment.main c)
       = Some ("- ビルドステータス: " ++ buildStatus values ++ " ("
               ++ renderTimestamp (statusChangedAt values) ++ ")")
    /\ List.map Comment.title (Comment.hints c) = ["詳細"].
Proof.
  intros Hwf.
  destruct (encodeURIComponent_wellFormed _ Hwf) as [enc Henc].
  unfold constructComment. rewrite Henc. cbn [rbind].
  destruct (builtInfo values), (tfBuildOutput entry),
    (generalBuildOutput entry);
    cbn [isNull negb andb prop rbind ok];
    destruct (truthyString (runTaskBuildOutput entry));
    cbn [rbind ok]; eexists; repeat split.
Qed.

End WithRenderers.

(** C8 (counterexample): an Entry whose [buildId] is an unpaired surrogate,
    with every optional field absent, makes [constructComment] throw a
    URIError. *)
Lemma constructComment_throws_URIError :
  constructComment Sample.renderTimestamp Sample.renderECRImageDigest
    {| prNumber := 42;
       buildId := Sample.loneSurrogate;
       buildArn := "arn";
       webImageDigest := "sha256:web";
       apiImageDigest := "sha256:api";
       generalBuildOutput := None;
       tfBuildOutput := None;
       runTaskBuildOutput := None |}
    {| buildStatus := "IN_PROGRESS";
       statusChangedAt := 1000000000;
       deepLogLink := None;
       builtInfo := None |}
    Sample.ctx
  = inl URIError.
Proof. reflexivity. Qed.

(** Every optional field absent. *)
Lemma constructComment_total_witness :
  wellFormed (buildId Sample.anEntry) = true
  /\ exists c,
       constructComment Sample.renderTimestamp Sample.renderECRImageDigest
         Sample.anEntry
         {| buildStatus := "IN_PROGRESS";
            statusChangedAt := 1000000000;
            deepLogLink := None;
            builtInfo := None |}
         Sample.ctx
       = inr c
       /\ List.hd None (Comment.main c)
          = Some "- ビルドステータス: IN_PROGRESS (1000000000)"
       /\ List.map Comment.title (Comment.hints c) = ["詳細"].
Proof.
  split; [reflexivity |].
  apply (constructComment_total
           Sample.renderTimestamp Sample.renderECRImageDigest
           Sample.anEntry
           {| buildStatus := "IN_PROGRESS";
              statusChangedAt := 1000000000;
              deepLogLink := None;
              builtInfo := None |}
           Sample.ctx).
  reflexivity.
Defined.

End CommentFacts.

(* ===================================================================== *)
(** ** Further properties of [update] *)
(* ===================================================================== *)

Module UpdateMore.

Import Js Temporal OperateEnv.
Import UpdateFacts.

Ltac split_cases :=
  repeat match goal with
    | |- context [required ?x _] =>
        destruct x eqn:?; cbn [required ok throw fst snd]
    | |- context [prop ?x _ _] =>
        destruct x eqn:?; cbn [prop ok throw fst snd]
    | |- context [if String.eqb ?a ?b then _ else _] =>
        destruct (String.eqb a b) eqn:?; cbn [ok throw fst snd]
    end.

(** Durations between two dates: the difference splits into whole seconds
    and milliseconds and nothing finer. *)
Lemma until_dates (a b : Date) :
  let d := until (toTemporalInstant a) (toTemporalInstant b) in
  seconds d = Z.quot (b - a) 1000
  /\ milliseconds d = Z.rem (b - a) 1000
  /\ microseconds d = 0
  /\ nanoseconds d = 0.
Proof.
  unfold until, toTemporalInstant.
  cbn [seconds milliseconds microseconds nanoseconds].
  replace (b * 1000000 - a * 1000000) with ((b - a) * 1000000) by lia.
  set (x := b - a).
  repeat split.
  - change 1000000000 with (1000 * 1000000).
    apply Z.quot_mul_cancel_r; lia.
  - change 1000000000 with (1000 * 1000000).
    rewrite Z.mul_rem_distr_r by lia.
    apply Z.quot_mul. lia.
  - rewrite Z.rem_mul by lia. reflexivity.
  - replace (x * 1000000) with (x * 1000 * 1000) by lia.
    apply Z.rem_mul. lia.
Qed.

Section WithRenderer.

Variable renderDuration : Duration -> string.
Variable entry : Entry.
Variable ctx : Context.

(** X1: what [update] does with the answer of the query, in the order
    of its guards.  No list: "builds not found".  An empty list: the
    engine's error for [undefined.buildStatus].  Otherwise the last
    record's status is checked first, then the first record's start time,
    then the last record's; when all three are there [update] returns,
    with the last record's status as [buildStatus]. *)
Theorem update_outcome_by_answer (w : Async.World) :
  match Aws.builds
          (Async.codeBuildBuilds w {| Aws.ids := [buildId entry] |})
  with
  | None =>
      fst (update renderDuration entry ctx w)
      = inl (TypeError "builds not found")
  | Some [] =>
      fst (update renderDuration entry ctx w)
      = inl (PropertyOfUndefined "buildStatus")
  | Some (b :: bs) =>
      match Aws.buildStatus (List.last bs b), Aws.startTime b,
            Aws.startTime (List.last bs b)
      with
      | None, _, _ =>
          fst (update renderDuration entry ctx w)
          = inl (TypeError "CodeBuild last buildStatus is not string")
      | Some _, None, _ =>
          fst (update renderDuration entry ctx w)
          = inl (TypeError "CodeBuild first startTime is not found")
      | Some _, Some _, None =>
          fst (update renderDuration entry ctx w)
          = inl (TypeError "CodeBuild last startTime is not found")
      | Some st, Some _, Some _ =>
          exists v,
            fst (update renderDuration entry ctx w) = inr v
            /\ buildStatus (values v) = st
      end
  end.
Proof.
  unfold update. run_async.
  destruct (Aws.builds
              (Async.codeBuildBuilds w {| Aws.ids := [buildId entry] |}))
    as [[| b bs] |]; cbn [required ok throw fst snd];
    [reflexivity | | reflexivity].
  rewrite index_first, index_last_cons. cbn [prop ok].
  destruct (Aws.buildStatus (List.last bs b)) as [st |];
    cbn [required ok throw fst snd]; [| reflexivity].
  destruct (Aws.startTime b) as [fs |];
    cbn [required ok throw fst snd]; [| reflexivity].
  destruct (Aws.startTime (List.last bs b)) as [ls |];
    cbn [required ok throw fst snd]; [| reflexivity].
  destruct (String.eqb st "SUCCEEDED");
    cbn [ok throw fst snd]; eexists; split; reflexivity.
Qed.

(** X2: whatever the outcome, the only remote call [update] makes is one
    query for the entry's build id; everything after it in the journal is
    logging, so no build is started and no image is looked up. *)
Theorem update_only_queries (w : Async.World) :
  exists logs,
    Async.journal (snd (update renderDuration entry ctx w))
    = (Async.journal w
       ++ Async.BatchGetBuilds {| Aws.ids := [buildId entry] |} :: logs)%list
    /\ forall e, In e logs -> exists m, e = Async.LoggerInfo m.
Proof.
  unfold update. run_async.
  split_cases;
    cbn [Async.journal Async.record snd];
    rewrite <- ?app_assoc; cbn [app];
    (eexists; split; [reflexivity |]);
    intros e He; cbn [In] in He;
    repeat (destruct He as [<- | He]; [eexists; reflexivity |]);
    contradiction.
Qed.

(** X3: in every reply of [update] the status and the Values agree:
    [success] exactly for SUCCEEDED, [failure] exactly for FAILED, and a
    [builtInfo] exactly when the status is [success]. *)
Theorem update_status_matches_values (w : Async.World) (v : Reply) :
  fst (update renderDuration entry ctx w) = inr v ->
  (status v = Own success <-> buildStatus (values v) = "SUCCEEDED")
  /\ (status v = Own failure <-> buildStatus (values v) = "FAILED")
  /\ (builtInfo (values v) <> None <-> status v = Own success).
Proof.
  unfold update. run_async.
  split_cases; intros H; try discriminate H; injection H as <-;
    cbn [status values buildStatus builtInfo];
    unfold get, statusTable; cbn [ownProperty];
    match goal with
    | E : String.eqb ?s "SUCCEEDED" = _ |- _ =>
        rewrite String.eqb_sym in E; rewrite E;
        apply String.eqb_eq in E || apply String.eqb_neq in E
    end.
  - subst. cbn [nullish]. repeat split; try congruence; try discriminate.
  - destruct (String.eqb_spec "FAILED" s) as [<- | Hf].
    + cbn [nullish]. repeat split; try congruence; try discriminate.
    + destruct (inList s objectPrototypeKeys); cbn [nullish];
        repeat split; try congruence; try discriminate.
Qed.

(** X5: for a SUCCEEDED job with an end time the duration handed to the
    renderer is the time from the first record's start to the last
    record's end, in whole seconds and milliseconds: adding them up gives
    back the difference of the two dates, and the finer fields are 0. *)
Theorem update_duration_in_milliseconds
  (w : Async.World) bs first last fs ls le :
  Aws.builds (Async.codeBuildBuilds w {| Aws.ids := [buildId entry] |})
  = Some bs ->
  index bs 0 = Some first ->
  index bs (Z.of_nat (List.length bs) - 1) = Some last ->
  Aws.buildStatus last = Some "SUCCEEDED" ->
  Aws.startTime first = Some fs ->
  Aws.startTime last = Some ls ->
  Aws.endTime last = Some le ->
  exists v d,
    fst (update renderDuration entry ctx w) = inr v
    /\ builtInfo (values v) = Some {| timeRange := renderDuration d |}
    /\ seconds d * 1000 + milliseconds d = le - fs
    /\ microseconds d = 0
    /\ nanoseconds d = 0.
Proof.
  intros Hb Hf Hl Hst Hfs Hls Hle.
  exists
    {| status := nullish (get statusTable "SUCCEEDED") (Own undone);
       OperateEnv.entry := entry;
       values :=
         {| buildStatus := "SUCCEEDED";
            statusChangedAt := toTemporalInstant le;
            deepLogLink := optProp (Aws.logs last) Aws.deepLink;
            builtInfo :=
              Some {| timeRange :=
                        renderDuration
                          (until (toTemporalInstant fs)
                             (toTemporalInstant le)) |} |} |}.
  exists (until (toTemporalInstant fs) (toTemporalInstant le)).
  split.
  - rewrite (update_returns renderDuration entry ctx w bs first last
               "SUCCEEDED" fs ls Hb Hf Hl Hst Hfs Hls).
    rewrite Hle. reflexivity.
  - split; [reflexivity |].
    destruct (until_dates fs le) as (Hs & Hm & Hu & Hn).
    rewrite Hs, Hm, Hu, Hn. repeat split.
    pose proof (Z.quot_rem' (le - fs) 1000). lia.
Qed.

(** X6: a single SUCCEEDED record that has no end time yet is given the
    start time as the time of the change and the zero duration as build
    time. *)
Theorem update_succeeded_without_end_time (w : Async.World) b t :
  Aws.builds (Async.codeBuildBuilds w {| Aws.ids := [buildId entry] |})
  = Some [b] ->
  Aws.buildStatus b = Some "SUCCEEDED" ->
  Aws.startTime b = Some t ->
  Aws.endTime b = None ->
  exists v,
    fst (update renderDuration entry ctx w) = inr v
    /\ status v = Own success
    /\ statusChangedAt (values v) = toTemporalInstant t
    /\ builtInfo (values v)
       = Some {| timeRange := renderDuration (mkDuration 0 0 0 0) |}.
Proof.
  intros Hb Hst Ht He.
  eexists. split.
  - eapply (update_returns renderDuration entry ctx w [b] b b);
      try eassumption; reflexivity.
  - cbn [status values statusChangedAt builtInfo String.eqb].
    rewrite He. cbn [nullish].
    repeat split.
    unfold until. rewrite Z.sub_diag. reflexivity.
Qed.

End WithRenderer.

End UpdateMore.

(* ===================================================================== *)
(** ** Further properties of [main] *)
(* ===================================================================== *)

Module MainMore.

Import Js Temporal OperateEnv.
Import UpdateFacts MainFacts.

Local Abbreviation apiQuery ctx :=
  {| Aws.imageRegion := imageRegion;
     Aws.imageRepoName := API_REPO_NAME (env ctx);
     Aws.imageTag := namespace ctx |}.

Local Abbreviation webQuery ctx :=
  {| Aws.imageRegion := imageRegion;
     Aws.imageRepoName := WEB_REPO_NAME (env ctx);
     Aws.imageTag := namespace ctx |}.

(** Parsing with the union of literals gives back exactly the operation
    whose literal the string is. *)
Lemma parseOperation_iff (s : string) (op : Operation) :
  OpEnv.parseOperation s = Some op <-> s = operationString op.
Proof.
  split.
  - unfold OpEnv.parseOperation, OpEnv.operations. cbn [List.find].
    repeat match goal with
      | |- context [String.eqb ?a s] =>
          destruct (String.eqb_spec a s) as [<- | ?]
      end;
      intros H; try discriminate H; injection H as <-; reflexivity.
  - intros ->. destruct op; reflexivity.
Qed.

Section WithParams.

Variable paramsGetter : Env -> CreateParams.
Variable ctx : Context.
Variable args : unit.
Variable generalEntry : GeneralEntry.

(** X7: when the API image is missing [main] stops after that one lookup:
    the WEB image is not looked up and nothing else is called. *)
Theorem main_stops_after_missing_api (w : Async.World) :
  Async.ecr w (apiQuery ctx) = None ->
  Async.journal (snd (main paramsGetter ctx args generalEntry w))
  = (Async.journal w ++ [Async.GetImageDetailByTag (apiQuery ctx)])%list.
Proof.
  intros H. unfold main. run_async. rewrite H. reflexivity.
Qed.

(** X8: when both images are found but the answer of the start call lacks
    the build, its status, id, arn or start time, [main] throws the
    TypeError naming the first missing part; by then the build has been
    started on the operate-env project, and no Entry comes back for it. *)
Theorem main_incomplete_response_throws
  (w : Async.World) apiImage webImage (r : Aws.StartBuildOutput) :
  Async.ecr w (apiQuery ctx) = Some apiImage ->
  Async.ecr w (webQuery ctx) = Some webImage ->
  (forall input,
      Aws.projectName input = OPERATE_ENV_PROJECT_NAME (env ctx) ->
      Async.codeBuildStart w input = r) ->
  (Aws.build r = None
   \/ exists b,
       Aws.build r = Some b
       /\ (Aws.buildStatus b = None \/ Aws.id b = None
           \/ Aws.arn b = None \/ Aws.startTime b = None)) ->
  exists m input,
    fst (main paramsGetter ctx args generalEntry w) = inl (TypeError m)
    /\ In m ["Response not found for CodeBuild.startBuild";
             "CodeBuild response buildStatus is not string";
             "CodeBuild response id is not string";
             "CodeBuild response arn is not string";
             "CodeBuild response startTime is not Date"]
    /\ Async.startedBuilds
         (Async.journal (snd (main paramsGetter ctx args generalEntry w)))
       = (Async.startedBuilds (Async.journal w) ++ [input])%list
    /\ Aws.projectName input = OPERATE_ENV_PROJECT_NAME (env ctx).
Proof.
  intros Ha Hw Hstart Hbad.
  unfold main. run_async.
  rewrite Ha. cbn [required ok throw]. rewrite Hw. cbn [required ok throw].
  rewrite Hstart by reflexivity.
  assert (J : forall (input : Aws.StartBuildInput),
             Async.startedBuilds
               (((Async.journal w
                  ++ [Async.GetImageDetailByTag (apiQuery ctx)])
                 ++ [Async.GetImageDetailByTag (webQuery ctx)])
                ++ [Async.StartBuild input])%list
             = (Async.startedBuilds (Async.journal w) ++ [input])%list).
  { intros input. rewrite !startedBuilds_app. cbn [Async.startedBuilds].
    rewrite !app_nil_r. reflexivity. }
  destruct (Aws.build r) as [b |] eqn:Eb; cbn [required ok throw fst snd].
  2: { eexists. eexists. split; [reflexivity |].
       split; [cbn; auto |]. split; [apply J | reflexivity]. }
  destruct (Aws.buildStatus b) eqn:Est; cbn [required ok throw fst snd].
  2: { eexists. eexists. split; [reflexivity |].
       split; [cbn; auto |]. split; [apply J | reflexivity]. }
  destruct (Aws.id b) eqn:Eid; cbn [required ok throw fst snd].
  2: { eexists. eexists. split; [reflexivity |].
       split; [cbn; auto |]. split; [apply J | reflexivity]. }
  destruct (Aws.arn b) eqn:Earn; cbn [required ok throw fst snd].
  2: { eexists. eexists. split; [reflexivity |].
       split; [cbn; auto 6 |]. split; [apply J | reflexivity]. }
  destruct (Aws.startTime b) eqn:Et; cbn [required ok throw fst snd].
  2: { eexists. eexists. split; [reflexivity |].
       split; [cbn; auto 6 |]. split; [apply J | reflexivity]. }
  exfalso. destruct Hbad as [H | (b' & Hb' & H)]; [discriminate H |].
  injection Hb' as <-.
  destruct H as [H | [H | [H | H]]]; congruence.
Qed.

(** X9: whenever [main] returns, it has started exactly one build, on the
    operate-env project, and that build was given the very digests the
    returned Entry records, the namespace, the entry's UUID, the Terraform
    version and the operation of the command, under six distinct names;
    the operation is passed as a literal that parses back to it. *)
Theorem main_starts_build_with_entry_digests (w : Async.World) (v : Reply) :
  fst (main paramsGetter ctx args generalEntry w) = inr v ->
  exists input op,
    Async.startedBuilds
      (Async.journal (snd (main paramsGetter ctx args generalEntry w)))
    = (Async.startedBuilds (Async.journal w) ++ [input])%list
    /\ Aws.projectName input = OPERATE_ENV_PROJECT_NAME (env ctx)
    /\ Aws.environmentVariablesOverride input
       = [Aws.mkEnvVar "ENTRY_UUID" (uuid generalEntry);
          Aws.mkEnvVar "OPERATION" op;
          Aws.mkEnvVar "TERRAFORM_VERSION" "1.0.9";
          Aws.mkEnvVar "NAMESPACE" (namespace ctx);
          Aws.mkEnvVar "API_REPO_SHA" (apiImageDigest (entry v));
          Aws.mkEnvVar "WEB_REPO_SHA" (webImageDigest (entry v))]
    /\ OpEnv.parseOperation op = Some (operation (paramsGetter (env ctx))).
Proof.
  unfold main. run_async.
  destruct (Async.ecr w (apiQuery ctx)) as [apiImage |];
    cbn [required ok throw fst snd]; [| discriminate].
  destruct (Async.ecr w (webQuery ctx)) as [webImage |];
    cbn [required ok throw fst snd]; [| discriminate].
  match goal with
  | |- context [Aws.build ?r] => destruct (Aws.build r) as [b |]
  end; cbn [required ok throw fst snd]; [| discriminate].
  destruct (Aws.buildStatus b); cbn [required ok throw fst snd];
    [| discriminate].
  destruct (Aws.id b); cbn [required ok throw fst snd]; [| discriminate].
  destruct (Aws.arn b); cbn [required ok throw fst snd]; [| discriminate].
  destruct (Aws.startTime b); cbn [required ok throw fst snd];
    [| discriminate].
  intros H. injection H as <-.
  eexists. exists (operationString (operation (paramsGetter (env ctx)))).
  split.
  - cbn [Async.journal Async.record].
    rewrite !startedBuilds_app. cbn [Async.startedBuilds].
    rewrite !app_nil_r. reflexivity.
  - split; [reflexivity |]. split; [reflexivity |].
    apply parseOperation_iff. reflexivity.
Qed.

(** X19: with both images found, what [main] does with the answer of
    the start call, in the order of its guards: the build, its status,
    its id, its arn, its start time; the first one missing decides the
    TypeError, and with all of them there [main] returns. *)
Theorem main_outcome_by_start_answer
  (w : Async.World) apiImage webImage (r : Aws.StartBuildOutput) :
  Async.ecr w (apiQuery ctx) = Some apiImage ->
  Async.ecr w (webQuery ctx) = Some webImage ->
  (forall input,
      Aws.projectName input = OPERATE_ENV_PROJECT_NAME (env ctx) ->
      Async.codeBuildStart w input = r) ->
  match Aws.build r with
  | None =>
      fst (main paramsGetter ctx args generalEntry w)
      = inl (TypeError "Response not found for CodeBuild.startBuild")
  | Some b =>
      match Aws.buildStatus b, Aws.id b, Aws.arn b, Aws.startTime b with
      | None, _, _, _ =>
          fst (main paramsGetter ctx args generalEntry w)
          = inl (TypeError "CodeBuild response buildStatus is not string")
      | Some _, None, _, _ =>
          fst (main paramsGetter ctx args generalEntry w)
          = inl (TypeError "CodeBuild response id is not string")
      | Some _, Some _, None, _ =>
          fst (main paramsGetter ctx args generalEntry w)
          = inl (TypeError "CodeBuild response arn is not string")
      | Some _, Some _, Some _, None =>
          fst (main paramsGetter ctx args generalEntry w)
          = inl (TypeError "CodeBuild response startTime is not Date")
      | Some st, Some i, Some a, Some t =>
          exists v,
            fst (main paramsGetter ctx args generalEntry w) = inr v
            /\ buildId (entry v) = i
            /\ buildArn (entry v) = a
            /\ buildStatus (values v) = st
      end
  end.
Proof.
  intros Ha Hw Hstart.
  unfold main. run_async.
  rewrite Ha. cbn [required ok throw]. rewrite Hw. cbn [required ok throw].
  rewrite Hstart by reflexivity.
  destruct (Aws.build r) as [b |]; cbn [required ok throw fst snd];
    [| reflexivity].
  destruct (Aws.buildStatus b); cbn [required ok throw fst snd];
    [| reflexivity].
  destruct (Aws.id b); cbn [required ok throw fst snd]; [| reflexivity].
  destruct (Aws.arn b); cbn [required ok throw fst snd]; [| reflexivity].
  destruct (Aws.startTime b); cbn [required ok throw fst snd];
    [| reflexivity].
  eexists. repeat split.
Qed.

End WithParams.

End MainMore.

(* ===================================================================== *)
(** ** Properties of [encodeURIComponent] *)
(* ===================================================================== *)

Module UriFacts.

Import Js.
Import CommentFacts.

Lemma hexDigit_unescaped (n : N) :
  (n < 16)%N -> uriUnescaped (hexDigit n) = true.
Proof.
  intros H.
  replace n with (N.of_nat (N.to_nat n)) by lia.
  assert (K : (N.to_nat n < 16)%nat) by lia.
  revert K. generalize (N.to_nat n) as k. intros k K.
  do 16 (destruct k as [| k]; [reflexivity |]). lia.
Qed.

Lemma hexDigit_inj (a b : N) :
  (a < 16)%N -> (b < 16)%N -> hexDigit a = hexDigit b -> a = b.
Proof.
  intros Ha Hb H. unfold hexDigit in H.
  destruct (N.ltb_spec a 10), (N.ltb_spec b 10);
    apply (f_equal N_of_ascii) in H;
    rewrite !N_ascii_embedding in H by lia; lia.
Qed.

Lemma ascii_high_low (c : ascii) :
  (N_of_ascii c / 16 < 16)%N /\ (N_of_ascii c mod 16 < 16)%N.
Proof.
  pose proof (N_ascii_bounded c) as B. split.
  - apply N.Div0.div_lt_upper_bound. lia.
  - apply N.mod_lt. lia.
Qed.

(** One step of the encoding, read backwards. *)
Lemma encode_cons_inv (c : ascii) (rest r : string) :
  encodeURIComponent (String c rest) = inr r ->
  exists r1,
    encodeURIComponent rest = inr r1
    /\ ((uriUnescaped c = true /\ r = String c r1)
        \/ (uriUnescaped c = false
            /\ r = String "%"
                     (String (hexDigit (N_of_ascii c / 16))
                        (String (hexDigit (N_of_ascii c mod 16)) r1)))).
Proof.
  cbn [encodeURIComponent].
  destruct (uriUnescaped c) eqn:Hu.
  - destruct (encodeURIComponent rest) as [e | r1]; cbn [rbind ok];
      intros H; [discriminate H |].
    injection H as <-. exists r1. split; [reflexivity |]. left. auto.
  - destruct (surrogateAt c rest); [discriminate |].
    destruct (encodeURIComponent rest) as [e | r1]; cbn [rbind ok];
      intros H; [discriminate H |].
    injection H as <-. exists r1. split; [reflexivity |]. right. auto.
Qed.

(** X10: [encodeURIComponent] returns on exactly the strings without an
    unpaired surrogate; on the others it throws URIError. *)
Theorem encodeURIComponent_returns_iff (s : string) :
  ((exists r, encodeURIComponent s = inr r) <-> wellFormed s = true)
  /\ (encodeURIComponent s = inl URIError <-> wellFormed s = false).
Proof.
  split; split.
  - intros [r Hr]. destruct (wellFormed s) eqn:E; [reflexivity |].
    rewrite (encodeURIComponent_illFormed s E) in Hr. discriminate Hr.
  - apply encodeURIComponent_wellFormed.
  - intros H. destruct (wellFormed s) eqn:E; [| reflexivity].
    destruct (encodeURIComponent_wellFormed s E) as [r Hr].
    rewrite Hr in H. discriminate H.
  - apply encodeURIComponent_illFormed.
Qed.

(** X11: the encoded string is made of unescaped characters and [%]
    only, so it holds no [/], [?], [#], [&] or space. *)
Theorem encodeURIComponent_alphabet (s r : string) :
  encodeURIComponent s = inr r ->
  Forall (fun c => uriUnescaped c = true \/ c = "%"%char)
    (list_ascii_of_string r).
Proof.
  revert r. induction s as [| c rest IH]; intros r H.
  - injection H as <-. constructor.
  - destruct (encode_cons_inv c rest r H) as (r1 & Hr1 & [[Hu ->] | [Hu ->]]).
    + cbn [list_ascii_of_string]. constructor; [left; exact Hu |].
      apply IH. exact Hr1.
    + destruct (ascii_high_low c) as [Hh Hl].
      cbn [list_ascii_of_string].
      constructor; [right; reflexivity |].
      constructor; [left; apply hexDigit_unescaped; exact Hh |].
      constructor; [left; apply hexDigit_unescaped; exact Hl |].
      apply IH. exact Hr1.
Qed.

(** X12: a string of unescaped characters is encoded as itself. *)
Theorem encodeURIComponent_unescaped_fixed (s : string) :
  Forall (fun c => uriUnescaped c = true) (list_ascii_of_string s) ->
  encodeURIComponent s = inr s.
Proof.
  induction s as [| c rest IH]; intros H; [reflexivity |].
  cbn [list_ascii_of_string] in H. inversion H as [| ? ? Hc Hrest]; subst.
  cbn [encodeURIComponent]. rewrite Hc, (IH Hrest). reflexivity.
Qed.

(** X13: different strings are never encoded alike, so the encoded build
    id in the build URL determines the build id. *)
Theorem encodeURIComponent_injective (s s' r : string) :
  encodeURIComponent s = inr r ->
  encodeURIComponent s' = inr r ->
  s = s'.
Proof.
  revert s' r. induction s as [| c rest IH]; intros s' r H H'.
  - injection H as <-. destruct s' as [| c' rest']; [reflexivity |].
    destruct (encode_cons_inv c' rest' _ H')
      as (r1 & _ & [[_ E] | [_ E]]); discriminate E.
  - destruct s' as [| c' rest'].
    + injection H' as <-.
      destruct (encode_cons_inv c rest _ H)
        as (r1 & _ & [[_ E] | [_ E]]); discriminate E.
    + destruct (encode_cons_inv c rest r H)
        as (r1 & Hr1 & [[Hu ->] | [Hu ->]]);
        destruct (encode_cons_inv c' rest' _ H')
          as (r1' & Hr1' & [[Hu' E] | [Hu' E]]).
      * injection E as -> ->. f_equal. eapply IH; eassumption.
      * injection E as -> _. discriminate Hu.
      * injection E as <- _. discriminate Hu'.
      * injection E as Eh El ->.
        destruct (ascii_high_low c) as [Hh Hl].
        destruct (ascii_high_low c') as [Hh' Hl'].
        apply hexDigit_inj in Eh; [| assumption | assumption].
        apply hexDigit_inj in El; [| assumption | assumption].
        assert (Ec : N_of_ascii c = N_of_ascii c').
        { rewrite (N.div_mod (N_of_ascii c) 16) by lia.
          rewrite (N.div_mod (N_of_ascii c') 16) by lia.
          rewrite Eh, El. reflexivity. }
        apply (f_equal ascii_of_N) in Ec.
        rewrite !ascii_N_embedding in Ec. subst c'.
        f_equal. eapply IH; eassumption.
Qed.

End UriFacts.

(* ===================================================================== *)
(** ** Further properties of [constructComment] *)
(* ===================================================================== *)

Module CommentMore.

Import Js Temporal OperateEnv.
Import UpdateFacts CommentFacts.

(** The number of lines that are not a falsy element. *)
Local Abbreviation shown ls :=
  (List.length (List.filter (fun l : Line => negb (isNull l)) ls)).

(** What [main] returns carries none of the optional fields. *)
Lemma main_reply_shape paramsGetter ctx args generalEntry w v :
  fst (main paramsGetter ctx args generalEntry w) = inr v ->
  generalBuildOutput (entry v) = None
  /\ tfBuildOutput (entry v) = None
  /\ runTaskBuildOutput (entry v) = None
  /\ deepLogLink (values v) = None
  /\ builtInfo (values v) = None.
Proof.
  unfold main. run_async.
  repeat match goal with
    | |- context [required ?x _] =>
        destruct x; cbn [required ok throw fst snd]
    end;
    intros H; try discriminate H; injection H as <-;
    repeat split; reflexivity.
Qed.

Section WithRenderers.

Variable renderTimestamp : Instant -> string.
Variable renderECRImageDigest : string -> string -> string -> string.

(** X14: [constructComment] throws nothing but the URIError of an
    ill-formed build id. *)
Theorem constructComment_throws_only_URIError
  (entry : Entry) (values : CommentValues) (ctx : Context) e :
  constructComment renderTimestamp renderECRImageDigest entry values ctx
  = inl e ->
  e = URIError /\ wellFormed (buildId entry) = false.
Proof.
  destruct (wellFormed (buildId entry)) eqn:Hwf.
  - destruct (encodeURIComponent_wellFormed _ Hwf) as [enc Henc].
    unfold constructComment. rewrite Henc. cbn [rbind].
    destruct (builtInfo values), (tfBuildOutput entry),
      (generalBuildOutput entry);
      cbn [isNull negb andb prop rbind ok];
      destruct (truthyString (runTaskBuildOutput entry));
      cbn [rbind ok]; discriminate.
  - unfold constructComment.
    rewrite (encodeURIComponent_illFormed _ Hwf). cbn [rbind].
    intros H. injection H as <-. auto.
Qed.

(** X15: the comment holds one line per piece of information present and
    none for an absent one.  The main list shows the status line, the
    build time when [builtInfo] is there and the two URLs when
    [tfBuildOutput] is there; the one hints section shows the build id
    and the two digests, the cluster with [tfBuildOutput], the
    definition version with [generalBuildOutput], the RunTask log only
    with both [tfBuildOutput] and a non-empty [runTaskBuildOutput], and
    the deep log link when it is a non-empty string. *)
Theorem constructComment_line_counts
  (entry : Entry) (values : CommentValues) (ctx : Context) c :
  constructComment renderTimestamp renderECRImageDigest entry values ctx
  = inr c ->
  shown (Comment.main c)
  = (1 + (if isNull (builtInfo values) then 0 else 1)
     + (if isNull (tfBuildOutput entry) then 0 else 2))%nat
  /\ exists h,
      Comment.hints c = [h]
      /\ shown (Body.main (Comment.body h))
         = (3 + (if isNull (tfBuildOutput entry) then 0 else 1)
            + (if isNull (generalBuildOutput entry) then 0 else 1)
            + (if negb (isNull (tfBuildOutput entry))
                  && truthyString (runTaskBuildOutput entry)
               then 1 else 0)
            + (if truthyString (deepLogLink values) then 1 else 0))%nat.
Proof.
  unfold constructComment.
  destruct (encodeURIComponent (buildId entry)) as [e | enc];
    cbn [rbind]; [discriminate |].
  destruct (builtInfo values), (tfBuildOutput entry),
    (generalBuildOutput entry);
    cbn [isNull negb andb prop rbind ok];
    destruct (truthyString (runTaskBuildOutput entry));
    cbn [rbind ok];
    destruct (truthyString (deepLogLink values));
    intros H; injection H as <-;
    (split; [reflexivity | eexists; split; reflexivity]).
Qed.

(** X16: what [main] returns can be rendered as soon as the build id is
    well formed, and the first comment is the status line, the build id
    with its console URL and the two image digests, with every optional
    line left out. *)
Theorem main_reply_renders paramsGetter ctx args generalEntry w v :
  fst (main paramsGetter ctx args generalEntry w) = inr v ->
  wellFormed (buildId (entry v)) = true ->
  exists enc,
    encodeURIComponent (buildId (entry v)) = inr enc
    /\ constructComment renderTimestamp renderECRImageDigest
         (entry v) (values v) ctx
       = inr
           {| Comment.main :=
                [Some ("- ビルドステータス: " ++ buildStatus (values v) ++ " ("
                       ++ renderTimestamp (statusChangedAt (values v))
                       ++ ")");
                 None];
              Comment.hints :=
                [{| Comment.title := "詳細";
                    Comment.body :=
                      {| Body.main :=
                           [Some ("- ビルドID: [" ++ buildId (entry v) ++ "]("
                                  ++ ("https://ap-northeast-1"
                                      ++ ".console.aws.amazon.com/codesuite"
                                      ++ "/codebuild/projects/"
                                      ++ OPERATE_ENV_PROJECT_NAME (env ctx)
                                      ++ "/build/" ++ enc
                                      ++ "/?region=ap-northeast-1")
                                  ++ ")");
                            Some ("- 使用した Web イメージダイジェスト: "
                                  ++ renderECRImageDigest "ap-northeast-1"
                                       (webImageDigest (entry v))
                                       (WEB_REPO_NAME (env ctx)));
                            Some ("- 使用した API イメージダイジェスト: "
                                  ++ renderECRImageDigest "ap-northeast-1"
                                       (apiImageDigest (entry v))
                                       (API_REPO_NAME (env ctx)));
                            None; None] |} |}] |}.
Proof.
  intros Hmain Hwf.
  destruct (main_reply_shape _ _ _ _ _ _ Hmain)
    as (Hg & Htf & Hrt & Hdl & Hbi).
  destruct (encodeURIComponent_wellFormed _ Hwf) as [enc Henc].
  exists enc. split; [exact Henc |].
  unfold constructComment.
  rewrite Henc, Hg, Htf, Hrt, Hdl, Hbi. reflexivity.
Qed.

End WithRenderers.

End CommentMore.

(* ===================================================================== *)
(** ** Properties of the environment schemas *)
(* ===================================================================== *)

Module SchemaFacts.

Import Js OperateEnv.

Lemma matchHere_never_seq (b : RegExp.t) (s : string) :
  RegExp.matchHere (RegExp.Seq RegExp.Never b) s = false.
Proof.
  induction s as [| c rest IH]; [reflexivity |].
  cbn [RegExp.matchHere RegExp.nullable RegExp.deriv andb orb]. exact IH.
Qed.

Lemma matchHere_namespace (c : ascii) (rest : string) :
  RegExp.matchHere OpEnv.namespacePattern (String c rest)
  = between 97 122 c.
Proof.
  unfold OpEnv.namespacePattern.
  cbn [RegExp.matchHere RegExp.nullable RegExp.deriv andb orb].
  destruct (between 97 122 c).
  - destruct rest; reflexivity.
  - apply matchHere_never_seq.
Qed.

(** X18: the NAMESPACE pattern has no anchors: the schema accepts every
    string that holds a lower-case letter somewhere, whatever surrounds
    it, and rejects the others. *)
Theorem namespaceAccepted_iff (s : string) :
  OpEnv.namespaceAccepted s = true
  <-> exists c, In c (list_ascii_of_string s) /\ between 97 122 c = true.
Proof.
  unfold OpEnv.namespaceAccepted.
  induction s as [| c rest IH].
  - split; [discriminate | intros (c & [] & _)].
  - cbn [RegExp.test list_ascii_of_string].
    rewrite matchHere_namespace, orb_true_iff, IH.
    split.
    + intros [H | (c' & Hin & H)].
      * exists c. split; [left; reflexivity | exact H].
      * exists c'. split; [right; exact Hin | exact H].
    + intros (c' & [<- | Hin] & H).
      * left. exact H.
      * right. exists c'. auto.
Qed.

End SchemaFacts.

(* ===================================================================== *)
(** ** Concrete runs of the further properties *)
(* ===================================================================== *)

Module Runs.

Import Js Temporal OperateEnv.

(** A finished, successful job. *)
Lemma update_status_matches_values_witness :
  exists v,
    fst (update Sample.renderDuration Sample.anEntry Sample.ctx
           (Sample.world (Some [Sample.job (Some "SUCCEEDED") true])))
    = inr v
    /\ (status v = Own success <-> buildStatus (values v) = "SUCCEEDED")
    /\ (status v = Own failure <-> buildStatus (values v) = "FAILED")
    /\ (builtInfo (values v) <> None <-> status v = Own success).
Proof.
  eexists. split.
  - reflexivity.
  - apply (UpdateMore.update_status_matches_values
             Sample.renderDuration Sample.anEntry Sample.ctx
             (Sample.world (Some [Sample.job (Some "SUCCEEDED") true]))).
    reflexivity.
Defined.

(** A job that timed out. *)
Lemma update_unrecognized_status_undone_witness :
  exists v,
    fst (update Sample.renderDuration Sample.anEntry Sample.ctx
           (Sample.world (Some [Sample.job (Some "TIMED_OUT") true])))
    = inr v
    /\ status v = Own undone.
Proof.
  apply (UpdateFacts.update_unrecognized_status_undone
           Sample.renderDuration Sample.anEntry Sample.ctx
           (Sample.world (Some [Sample.job (Some "TIMED_OUT") true]))
           [Sample.job (Some "TIMED_OUT") true]
           (Sample.job (Some "TIMED_OUT") true)
           (Sample.job (Some "TIMED_OUT") true)
           "TIMED_OUT" 1000 1000).
  - reflexivity.
  - reflexivity.
  - reflexivity.
  - reflexivity.
  - reflexivity.
  - reflexivity.
  - discriminate.
  - discriminate.
  - reflexivity.
Defined.

(** Sixty seconds from start to end. *)
Lemma update_duration_in_milliseconds_witness :
  exists v d,
    fst (update Sample.renderDuration Sample.anEntry Sample.ctx
           (Sample.world (Some [Sample.job (Some "SUCCEEDED") true])))
    = inr v
    /\ builtInfo (values v)
       = Some {| timeRange := Sample.renderDuration d |}
    /\ seconds d * 1000 + milliseconds d = 61000 - 1000
    /\ microseconds d = 0
    /\ nanoseconds d = 0.
Proof.
  apply (UpdateMore.update_duration_in_milliseconds
           Sample.renderDuration Sample.anEntry Sample.ctx
           (Sample.world (Some [Sample.job (Some "SUCCEEDED") true]))
           [Sample.job (Some "SUCCEEDED") true]
           (Sample.job (Some "SUCCEEDED") true)
           (Sample.job (Some "SUCCEEDED") true)
           1000 1000 61000).
  - reflexivity.
  - reflexivity.
  - reflexivity.
  - reflexivity.
  - reflexivity.
  - reflexivity.
  - reflexivity.
Defined.

(** SUCCEEDED reported before the end time is there. *)
Lemma update_succeeded_without_end_time_witness :
  exists v,
    fst (update Sample.renderDuration Sample.anEntry Sample.ctx
           (Sample.world (Some [Sample.job (Some "SUCCEEDED") false])))
    = inr v
    /\ status v = Own success
    /\ statusChangedAt (values v) = toTemporalInstant 1000
    /\ builtInfo (values v)
       = Some {| timeRange := Sample.renderDuration (mkDuration 0 0 0 0) |}.
Proof.
  apply (UpdateMore.update_succeeded_without_end_time
           Sample.renderDuration Sample.anEntry Sample.ctx
           (Sample.world (Some [Sample.job (Some "SUCCEEDED") false]))
           (Sample.job (Some "SUCCEEDED") false) 1000).
  - reflexivity.
  - reflexivity.
  - reflexivity.
  - reflexivity.
Defined.

(** No image at all: one lookup, for the API repository. *)
Lemma main_stops_after_missing_api_witness :
  Async.journal
    (snd (main Sample.paramsGetter Sample.ctx tt Sample.generalEntry
            Sample.worldWithoutImages))
  = [Async.GetImageDetailByTag
       {| Aws.imageRegion := "ap-northeast-1";
          Aws.imageRepoName := "api-repo";
          Aws.imageTag := "pr42" |}].
Proof.
  apply (MainMore.main_stops_after_missing_api
           Sample.paramsGetter Sample.ctx tt Sample.generalEntry
           Sample.worldWithoutImages).
  reflexivity.
Defined.

(** The started build comes back without its arn. *)
Lemma main_incomplete_response_throws_witness :
  exists m input,
    fst (main Sample.paramsGetter Sample.ctx tt Sample.generalEntry
           Sample.worldWithoutArn)
    = inl (TypeError m)
    /\ In m ["Response not found for CodeBuild.startBuild";
             "CodeBuild response buildStatus is not string";
             "CodeBuild response id is not string";
             "CodeBuild response arn is not string";
             "CodeBuild response startTime is not Date"]
    /\ Async.startedBuilds
         (Async.journal
            (snd (main Sample.paramsGetter Sample.ctx tt Sample.generalEntry
                    Sample.worldWithoutArn)))
       = (Async.startedBuilds (Async.journal Sample.worldWithoutArn)
          ++ [input])%list
    /\ Aws.projectName input = "operate-env".
Proof.
  apply (MainMore.main_incomplete_response_throws
           Sample.paramsGetter Sample.ctx tt Sample.generalEntry
           Sample.worldWithoutArn
           {| Aws.imageDigest := "sha256:api" |}
           {| Aws.imageDigest := "sha256:web" |}
           (Async.codeBuildStart Sample.worldWithoutArn
              {| Aws.projectName := "operate-env";
                 Aws.environmentVariablesOverride := [] |})).
  - reflexivity.
  - reflexivity.
  - intros input _. reflexivity.
  - right. eexists. split; [reflexivity |].
    right. right. left. reflexivity.
Defined.

(** Both images tagged, the build started. *)
Lemma main_starts_build_with_entry_digests_witness :
  exists v,
    fst (main Sample.paramsGetter Sample.ctx tt Sample.generalEntry
           (Sample.world None))
    = inr v
    /\ exists input op,
        Async.startedBuilds
          (Async.journal
             (snd (main Sample.paramsGetter Sample.ctx tt
                     Sample.generalEntry (Sample.world None))))
        = (Async.startedBuilds (Async.journal (Sample.world None))
           ++ [input])%list
        /\ Aws.projectName input = "operate-env"
        /\ Aws.environmentVariablesOverride input
           = [Aws.mkEnvVar "ENTRY_UUID"
                "0b0c2f0e-1111-4222-8333-444455556666";
              Aws.mkEnvVar "OPERATION" op;
              Aws.mkEnvVar "TERRAFORM_VERSION" "1.0.9";
              Aws.mkEnvVar "NAMESPACE" "pr42";
              Aws.mkEnvVar "API_REPO_SHA" (apiImageDigest (entry v));
              Aws.mkEnvVar "WEB_REPO_SHA" (webImageDigest (entry v))]
        /\ OpEnv.parseOperation op = Some Deploy.
Proof.
  eexists. split.
  - reflexivity.
  - apply (MainMore.main_starts_build_with_entry_digests
             Sample.paramsGetter Sample.ctx tt Sample.generalEntry
             (Sample.world None)).
    reflexivity.
Defined.

(** The started build comes back without its arn: the arn error, the
    status and the id being there. *)
Lemma main_outcome_by_start_answer_witness :
  fst (main Sample.paramsGetter Sample.ctx tt Sample.generalEntry
         Sample.worldWithoutArn)
  = inl (TypeError "CodeBuild response arn is not string").
Proof.
  apply (MainMore.main_outcome_by_start_answer
           Sample.paramsGetter Sample.ctx tt Sample.generalEntry
           Sample.worldWithoutArn
           {| Aws.imageDigest := "sha256:api" |}
           {| Aws.imageDigest := "sha256:web" |}
           (Async.codeBuildStart Sample.worldWithoutArn
              {| Aws.projectName := "operate-env";
                 Aws.environmentVariablesOverride := [] |})).
  - reflexivity.
  - reflexivity.
  - intros input _. reflexivity.
Defined.

(** A build id with a colon. *)
Lemma encodeURIComponent_alphabet_witness :
  encodeURIComponent "operate-env:7f3a" = inr "operate-env%3A7f3a"
  /\ Forall (fun c => uriUnescaped c = true \/ c = "%"%char)
       (list_ascii_of_string "operate-env%3A7f3a").
Proof.
  split; [reflexivity |].
  apply (UriFacts.encodeURIComponent_alphabet "operate-env:7f3a").
  reflexivity.
Defined.

(** A project name made of letters and a hyphen. *)
Lemma encodeURIComponent_unescaped_fixed_witness :
  encodeURIComponent "operate-env" = inr "operate-env".
Proof.
  apply (UriFacts.encodeURIComponent_unescaped_fixed "operate-env").
  repeat constructor.
Defined.

(** Two build ids with the same encoding are the same. *)
Lemma encodeURIComponent_injective_witness :
  "operate-env:7f3a" = "operate-env:7f3a".
Proof.
  apply (UriFacts.encodeURIComponent_injective
           "operate-env:7f3a" "operate-env:7f3a" "operate-env%3A7f3a").
  - reflexivity.
  - reflexivity.
Defined.

(** The build id is an unpaired surrogate. *)
Lemma constructComment_throws_only_URIError_witness :
  URIError = URIError
  /\ wellFormed
       (buildId
          {| prNumber := 42;
             buildId := Sample.loneSurrogate;
             buildArn := "arn";
             webImageDigest := "sha256:web";
             apiImageDigest := "sha256:api";
             generalBuildOutput := None;
             tfBuildOutput := None;
             runTaskBuildOutput := None |})
     = false.
Proof.
  apply (CommentMore.constructComment_throws_only_URIError
           Sample.renderTimestamp Sample.renderECRImageDigest
           {| prNumber := 42;
              buildId := Sample.loneSurrogate;
              buildArn := "arn";
              webImageDigest := "sha256:web";
              apiImageDigest := "sha256:api";
              generalBuildOutput := None;
              tfBuildOutput := None;
              runTaskBuildOutput := None |}
           Sample.fullValues Sample.ctx URIError).
  reflexivity.
Defined.

(** Every optional field present: four and seven lines. *)
Lemma constructComment_line_counts_witness :
  exists c,
    constructComment Sample.renderTimestamp Sample.renderECRImageDigest
      Sample.fullEntry Sample.fullValues Sample.ctx
    = inr c
    /\ List.length
         (List.filter (fun l : Line => negb (isNull l)) (Comment.main c))
       = 4%nat
    /\ exists h,
        Comment.hints c = [h]
        /\ List.length
             (List.filter (fun l : Line => negb (isNull l))
                (Body.main (Comment.body h)))
           = 7%nat.
Proof.
  eexists. split.
  - reflexivity.
  - apply (CommentMore.constructComment_line_counts
             Sample.renderTimestamp Sample.renderECRImageDigest
             Sample.fullEntry Sample.fullValues Sample.ctx).
    reflexivity.
Defined.

(** The first comment of a started build. *)
Lemma main_reply_renders_witness :
  fst (main Sample.paramsGetter Sample.ctx tt Sample.generalEntry
         (Sample.world None))
  = inr Sample.firstReply
  /\ exists c,
      constructComment Sample.renderTimestamp Sample.renderECRImageDigest
        (entry Sample.firstReply) (values Sample.firstReply) Sample.ctx
      = inr c
      /\ Comment.main c
         = [Some "- ビルドステータス: IN_PROGRESS (1000000000)"; None].
Proof.
  split; [reflexivity |].
  destruct (CommentMore.main_reply_renders
              Sample.renderTimestamp Sample.renderECRImageDigest
              Sample.paramsGetter Sample.ctx tt Sample.generalEntry
              (Sample.world None) Sample.firstReply eq_refl eq_refl)
    as (enc & _ & Hc).
  eexists. split; [exact Hc | reflexivity].
Defined.

End Runs.
